(** * Translation façade: a shallow embedding of
      [src/shared/services/graph_service.py] and [src/function_app.py].

    The Python code is embedded as executable Rocq functions.  Mutable
    attributes of [GraphService] and the outside world (clock, HTTP
    transport) are threaded explicitly through a small state-and-exception
    monad; collaborators whose code lives in other modules of the
    repository are fields of an environment record. *)

From Stdlib Require Import ZArith List String Ascii Bool Lia.
Import ListNotations.
Open Scope string_scope.
Open Scope Z_scope.

(* ===================================================================== *)
(** ** Python values *)
(* ===================================================================== *)

Module Py.

(** The values that flow through the code: parsed JSON documents, query
    parameters, configuration values.  Numbers are kept as integers: the
    clock and the token lifetime are counted in whole seconds. *)
#[local] Unset Elimination Schemes.
Inductive pyval : Type :=
| PNone
| PBool (b : bool)
| PInt (z : Z)
| PStr (s : string)
| PList (l : list pyval)
| PDict (d : list (string * pyval)).
#[local] Set Elimination Schemes.

(** A raised exception: its class and [str(e)]. *)
Record Exn : Type := mkExn { exn_class : string; exn_msg : string }.

Inductive Result (A : Type) : Type :=
| Ok (a : A)
| Raise (e : Exn).
Arguments Ok {A} a.
Arguments Raise {A} e.

(** [type(v).__name__] *)
Definition type_name (v : pyval) : string :=
  match v with
  | PNone => "NoneType"
  | PBool _ => "bool"
  | PInt _ => "int"
  | PStr _ => "str"
  | PList _ => "list"
  | PDict _ => "dict"
  end.

Definition TypeError (m : string) : Exn := mkExn "TypeError" m.
Definition ValueError (m : string) : Exn := mkExn "ValueError" m.
Definition KeyError (k : string) : Exn := mkExn "KeyError" ("'" ++ k ++ "'").
Definition AttributeError (m : string) : Exn := mkExn "AttributeError" m.
Definition OverflowError (m : string) : Exn := mkExn "OverflowError" m.

(** [bool(v)], the test behind [if v] and [not v]. *)
Definition truthy (v : pyval) : bool :=
  match v with
  | PNone => false
  | PBool b => b
  | PInt z => negb (z =? 0)
  | PStr s => negb (String.eqb s "")
  | PList l => match l with [] => false | _ => true end
  | PDict d => match d with [] => false | _ => true end
  end.

(** Lookup in a dict kept in insertion order. *)
Fixpoint assoc (k : string) (d : list (string * pyval)) : option pyval :=
  match d with
  | [] => None
  | (k', v) :: r => if String.eqb k k' then Some v else assoc k r
  end.

(** [v.get(k, dflt)]: only dicts have the method. *)
Definition get_default (v : pyval) (k : string) (dflt : pyval) : Result pyval :=
  match v with
  | PDict d => Ok (match assoc k d with Some x => x | None => dflt end)
  | _ => Raise (AttributeError ("'" ++ type_name v ++ "' object has no attribute 'get'"))
  end.

(** [v.get(k)] *)
Definition get (v : pyval) (k : string) : Result pyval := get_default v k PNone.

(** [v[k]] with a string key. *)
Definition subscript (v : pyval) (k : string) : Result pyval :=
  match v with
  | PDict d => match assoc k d with
               | Some x => Ok x
               | None => Raise (KeyError k)
               end
  | PStr _ => Raise (TypeError "string indices must be integers, not 'str'")
  | PList _ => Raise (TypeError "list indices must be integers or slices, not str")
  | _ => Raise (TypeError ("'" ++ type_name v ++ "' object is not subscriptable"))
  end.

(** Substring test, for [k in s] on a string. *)
Fixpoint prefixb (p s : string) : bool :=
  match p, s with
  | EmptyString, _ => true
  | String a p', String b s' => Ascii.eqb a b && prefixb p' s'
  | String _ _, EmptyString => false
  end.

Fixpoint substringb (p s : string) : bool :=
  prefixb p s ||
  match s with
  | EmptyString => false
  | String _ s' => substringb p s'
  end.

Definition is_str (v : pyval) (s : string) : bool :=
  match v with
  | PStr s' => String.eqb s' s
  | _ => false
  end.

(** [k in v] with a string key. *)
Definition contains (k : string) (v : pyval) : Result bool :=
  match v with
  | PDict d => Ok (match assoc k d with Some _ => true | None => false end)
  | PList l => Ok (existsb (fun x => is_str x k) l)
  | PStr s => Ok (substringb k s)
  | _ => Raise (TypeError ("argument of type '" ++ type_name v ++ "' is not iterable"))
  end.

(** The elements a [for] loop visits. *)
Fixpoint chars (s : string) : list pyval :=
  match s with
  | EmptyString => []
  | String c r => PStr (String c EmptyString) :: chars r
  end.

Definition iter (v : pyval) : Result (list pyval) :=
  match v with
  | PList l => Ok l
  | PDict d => Ok (map (fun kv => PStr (fst kv)) d)
  | PStr s => Ok (chars s)
  | _ => Raise (TypeError ("'" ++ type_name v ++ "' object is not iterable"))
  end.

Definition is_none (v : pyval) : bool :=
  match v with PNone => true | _ => false end.

(** ['.' in s] *)
Fixpoint has_dot (s : string) : bool :=
  match s with
  | EmptyString => false
  | String c r => Ascii.eqb c "." || has_dot r
  end.

(** The two parts around the last ['.'] of [s], when there is one. *)
Fixpoint split_last_dot (s : string) : option (string * string) :=
  match s with
  | EmptyString => None
  | String c r =>
      match split_last_dot r with
      | Some (a, b) => Some (String c a, b)
      | None => if Ascii.eqb c "." then Some (EmptyString, r) else None
      end
  end.

(** [s.rsplit('.', 1)] *)
Definition rsplit_dot_1 (s : string) : list string :=
  match split_last_dot s with
  | Some (a, b) => [a; b]
  | None => [s]
  end.

(** [a, b = l] *)
Definition unpack2 (l : list string) : Result (string * string) :=
  match l with
  | [a; b] => Ok (a, b)
  | [] => Raise (ValueError "not enough values to unpack (expected 2, got 0)")
  | [_] => Raise (ValueError "not enough values to unpack (expected 2, got 1)")
  | _ => Raise (ValueError "too many values to unpack (expected 2)")
  end.

End Py.
Import Py.

(* ===================================================================== *)
(** ** The wall clock as [datetime] sees it *)
(* ===================================================================== *)

Record datetime : Type := mkDatetime {
  year : Z; month : Z; day : Z;
  hour : Z; minute : Z; second : Z;
  microsecond : Z
}.

(** The ranges [datetime] guarantees for its fields. *)
Definition datetime_ok (d : datetime) : Prop :=
  1 <= year d <= 9999 /\ 1 <= month d <= 12 /\ 1 <= day d <= 31 /\
  0 <= hour d <= 23 /\ 0 <= minute d <= 59 /\ 0 <= second d <= 59 /\
  0 <= microsecond d <= 999999.

(** Two instants in the same wall-clock second. *)
Definition same_second (d d' : datetime) : Prop :=
  year d = year d' /\ month d = month d' /\ day d = day d' /\
  hour d = hour d' /\ minute d = minute d' /\ second d = second d'.

Definition digit (n : Z) : ascii := ascii_of_N (Z.to_N (48 + n mod 10)).

Definition is_digit (c : ascii) : bool :=
  let n := Z.of_N (N_of_ascii c) in (48 <=? n) && (n <=? 57).

Definition pad2 (n : Z) : string :=
  String (digit (n / 10)) (String (digit n) EmptyString).

Definition pad4 (n : Z) : string :=
  String (digit (n / 1000)) (String (digit (n / 100)) (pad2 n)).

(** [d.strftime("%Y%m%d_%H%M%S")]: zero-padded decimal fields, as the
    [datetime] documentation gives them. *)
Definition strftime_Ymd_HMS (d : datetime) : string :=
  pad4 (year d) ++ pad2 (month d) ++ pad2 (day d) ++ "_" ++
  pad2 (hour d) ++ pad2 (minute d) ++ pad2 (second d).

(** The number a digit stands for, and the number a digit string reads
    as after the digits already read gave [acc]. *)
Definition digit_value (c : ascii) : Z := Z.of_N (N_of_ascii c) - 48.

Fixpoint decimal_from (acc : Z) (s : string) : Z :=
  match s with
  | EmptyString => acc
  | String c r => decimal_from (10 * acc + digit_value c) r
  end.

Fixpoint all_digits (s : string) : bool :=
  match s with
  | EmptyString => true
  | String c r => is_digit c && all_digits r
  end.

(* ===================================================================== *)
(** ** The outside world of [GraphService] *)
(* ===================================================================== *)

(** One call of the [requests] library. *)
Record Request : Type := mkRequest {
  method : string;
  url : string;
  headers : list (string * string);
  data : option pyval;        (* [data=] *)
  json_body : option pyval;   (* [json=] *)
  timeout : Z
}.

(** What the code reads of a [requests.Response]; [response.json()] raises
    when the body is not JSON. *)
Record Response : Type := mkResponse {
  status_code : Z;
  json : Result pyval;
  text : string
}.

(** The clock ([time.time()], in seconds) and the requests sent so far,
    oldest first. *)
Record World : Type := mkWorld {
  now : Z;
  sent : list Request
}.

(** What the process does not decide: the transport (given the requests
    already sent, the time of sending and the request, it gives the time
    at which the call ends and its outcome, a response or a raised
    exception), the local calendar time at a clock reading, [str()] of a
    value that is not a string, and [Config.is_onedrive_enabled()], which
    lives in [shared.config], outside the two modules embedded here. *)
Record Runtime : Type := mkRuntime {
  transport : list Request -> Z -> Request -> Z * Result Response;
  localtime : Z -> datetime;
  str_of : pyval -> string;
  is_onedrive_enabled : Result pyval
}.

(** The attributes [GraphService.__init__] sets. *)
Record GraphService : Type := mkGraphService {
  client_id : pyval;
  client_secret : pyval;
  tenant_id : pyval;
  onedrive_upload_enabled : pyval;
  onedrive_folder : string;
  token_url : string;
  graph_base_url : string;
  _access_token : pyval;
  _token_expires_at : option Z
}.

Definition set_access_token (v : pyval) (g : GraphService) : GraphService :=
  mkGraphService (client_id g) (client_secret g) (tenant_id g)
    (onedrive_upload_enabled g) (onedrive_folder g) (token_url g)
    (graph_base_url g) v (_token_expires_at g).

Definition set_token_expires_at (t : option Z) (g : GraphService) : GraphService :=
  mkGraphService (client_id g) (client_secret g) (tenant_id g)
    (onedrive_upload_enabled g) (onedrive_folder g) (token_url g)
    (graph_base_url g) (_access_token g) t.

(** [str(v)] *)
Definition py_str (rt : Runtime) (v : pyval) : string :=
  match v with
  | PStr s => s
  | _ => str_of rt v
  end.

(** The values of [shared.config.Config] that [__init__] reads. *)
Record Config : Type := mkConfig {
  CLIENT_ID : pyval;
  CLIENT_SECRET : pyval;
  TENANT_ID : pyval;
  ONEDRIVE_UPLOAD_ENABLED : pyval;
  ONEDRIVE_FOLDER : option string
}.

(** [GraphService.__init__]: the cache starts empty. *)
Definition GraphService_init (rt : Runtime) (c : Config) : GraphService :=
  {| client_id := CLIENT_ID c;
     client_secret := CLIENT_SECRET c;
     tenant_id := TENANT_ID c;
     onedrive_upload_enabled := ONEDRIVE_UPLOAD_ENABLED c;
     onedrive_folder :=
       match ONEDRIVE_FOLDER c with
       | Some f => if String.eqb f "" then "Translated Documents" else f
       | None => "Translated Documents"
       end;
     token_url := "https://login.microsoftonline.com/" ++ py_str rt (TENANT_ID c)
                  ++ "/oauth2/v2.0/token";
     graph_base_url := "https://graph.microsoft.com/v1.0";
     _access_token := PNone;
     _token_expires_at := None |}.

(* ===================================================================== *)
(** ** State and exceptions *)
(* ===================================================================== *)

(** A method of [GraphService] runs on the object and the world, and ends
    with a value or a raised exception; what it changed before raising
    stays changed. *)
Definition M (A : Type) : Type :=
  GraphService -> World -> Result A * GraphService * World.

Definition ret {A} (a : A) : M A := fun g w => (Ok a, g, w).

Definition bind {A B} (m : M A) (k : A -> M B) : M B :=
  fun g w =>
    match m g w with
    | (Ok a, g', w') => k a g' w'
    | (Raise e, g', w') => (Raise e, g', w')
    end.

Declare Scope py_scope.
Delimit Scope py_scope with py.
Notation "x <- m ;; k" := (bind m (fun x => k))
  (at level 61, m at next level, right associativity) : py_scope.
Notation "m ;;; k" := (bind m (fun _ => k))
  (at level 61, right associativity) : py_scope.
Open Scope py_scope.

(** A pure step that may raise. *)
Definition lift {A} (r : Result A) : M A := fun g w => (r, g, w).

(** [try: m except Exception as e: h e] *)
Definition try_except {A} (m : M A) (h : Exn -> M A) : M A :=
  fun g w =>
    match m g w with
    | (Ok a, g', w') => (Ok a, g', w')
    | (Raise e, g', w') => h e g' w'
    end.

Definition self : M GraphService := fun g w => (Ok g, g, w).

Definition assign (f : GraphService -> GraphService) : M unit :=
  fun g w => (Ok tt, f g, w).

(** [time.time()] *)
Definition time_time : M Z := fun g w => (Ok (now w), g, w).

Section Service.

Variable rt : Runtime.

(** One request through the transport: it is recorded as sent, and the
    clock moves to the end of the call. *)
Definition requests_send (r : Request) : M Response :=
  fun g w =>
    let '(t, out) := transport rt (sent w) (now w) r in
    (out, g, mkWorld t (sent w ++ [r])).

(** [datetime.now()] *)
Definition datetime_now : M datetime := fun g w => (Ok (localtime rt (now w)), g, w).

(** [Config.is_onedrive_enabled()] through [is_configured]. *)
Definition is_configured : M pyval := lift (is_onedrive_enabled rt).

(** The integers of this magnitude and above have no float: they round
    to [2 ^ 1024]. *)
Definition float_limit : Z := 2 ^ 1024 - 2 ^ 970.

(** [t + v] for the float [t]: numbers and booleans add, an integer too
    large for a float is an [OverflowError], anything else is a
    [TypeError].  The sum is taken exactly, as it is in floats while the
    operands and the result are whole numbers of magnitude at most
    [2 ^ 53]. *)
Definition add_seconds (t : Z) (v : pyval) : Result Z :=
  match v with
  | PInt z =>
      if Z.abs z <? float_limit then Ok (t + z)
      else Raise (OverflowError "int too large to convert to float")
  | PBool b => Ok (t + (if b then 1 else 0))
  | _ => Raise (TypeError ("unsupported operand type(s) for +: 'float' and '"
                           ++ type_name v ++ "'"))
  end.

Definition expiry_truthy (t : option Z) : bool :=
  match t with
  | Some z => negb (z =? 0)
  | None => false
  end.

Definition expiry_value (t : option Z) : Z :=
  match t with Some z => z | None => 0 end.

(** The test of [_get_access_token] on its cache at clock reading [t]:
    both attributes set, and [t] before the expiry less the margin. *)
Definition cache_valid (g : GraphService) (t : Z) : bool :=
  truthy (_access_token g) && expiry_truthy (_token_expires_at g)
  && (t <? expiry_value (_token_expires_at g) - 300).

(** The client-credential exchange [_get_access_token] posts. *)
Definition token_request (g : GraphService) : Request :=
  let form := PDict [("client_id", client_id g);
                     ("client_secret", client_secret g);
                     ("scope", PStr "https://graph.microsoft.com/.default");
                     ("grant_type", PStr "client_credentials")] in
  mkRequest "POST" (token_url g) [] (Some form) None 30.

(** [GraphService._get_access_token] *)
Definition _get_access_token : M pyval :=
  try_except
    (g <- self ;;
     cached <-
       (if truthy (_access_token g) && expiry_truthy (_token_expires_at g)
        then t <- time_time ;;
             ret (if t <? expiry_value (_token_expires_at g) - 300
                  then Some (_access_token g) else None)
        else ret None) ;;
     match cached with
     | Some tok => ret tok
     | None =>
         response <- requests_send (token_request g) ;;
         if status_code response =? 200 then
           token_data <- lift (json response) ;;
           tok <- lift (get token_data "access_token") ;;
           assign (set_access_token tok) ;;;
           expires_in <- lift (get_default token_data "expires_in" (PInt 3600)) ;;
           t <- time_time ;;
           expires_at <- lift (add_seconds t expires_in) ;;
           assign (set_token_expires_at (Some expires_at)) ;;;
           g' <- self ;;
           ret (_access_token g')
         else ret PNone
     end)
    (fun _ => ret PNone).

(** [_get_access_token] past a cache miss, case by case on the outcome
    of the exchange (shown equal to the method in [get_access_token_miss]). *)
Definition refreshed (g : GraphService) (w : World) : Result pyval * GraphService * World :=
  let '(t, out) := transport rt (sent w) (now w) (token_request g) in
  let w' := mkWorld t (sent w ++ [token_request g]) in
  match out with
  | Raise _ => (Ok PNone, g, w')
  | Ok response =>
      if status_code response =? 200 then
        match json response with
        | Raise _ => (Ok PNone, g, w')
        | Ok token_data =>
            match get token_data "access_token" with
            | Raise _ => (Ok PNone, g, w')
            | Ok tok =>
                match get_default token_data "expires_in" (PInt 3600) with
                | Raise _ => (Ok PNone, set_access_token tok g, w')
                | Ok expires_in =>
                    match add_seconds t expires_in with
                    | Raise _ => (Ok PNone, set_access_token tok g, w')
                    | Ok expires_at =>
                        (Ok tok,
                         set_token_expires_at (Some expires_at) (set_access_token tok g),
                         w')
                    end
                end
            end
        end
      else (Ok PNone, g, w')
  end.

(** The exchange failed: the transport raised, the status is not 200, or
    the 200 response could not be parsed into a token document. *)
Definition refresh_failed (out : Result Response) : Prop :=
  match out with
  | Raise _ => True
  | Ok response =>
      status_code response <> 200 \/
      (exists e, json response = Raise e) \/
      (exists token_data e, json response = Ok token_data /\
                            get token_data "access_token" = Raise e)
  end.

(** The loop of [_ensure_folder_exists] over the listed items: the id of
    the first item with the requested name that is a folder. *)
Fixpoint find_folder (folder_name : string) (items : list pyval)
  : Result (option pyval) :=
  match items with
  | [] => Ok None
  | item :: rest =>
      match get item "name" with
      | Raise e => Raise e
      | Ok n =>
          if is_str n folder_name then
            match get item "folder" with
            | Raise e => Raise e
            | Ok f =>
                if negb (is_none f) then
                  match get item "id" with
                  | Raise e => Raise e
                  | Ok i => Ok (Some i)
                  end
                else find_folder folder_name rest
            end
          else find_folder folder_name rest
      end
  end.

Definition is_200_or_201 (c : Z) : bool := (c =? 200) || (c =? 201).

(** The listing of the drive root that [_ensure_folder_exists] asks for. *)
Definition listing_request (g : GraphService) (access_token : pyval) : Request :=
  let search_url := graph_base_url g ++ "/me/drive/root/children" in
  let hdrs := [("Authorization", "Bearer " ++ py_str rt access_token)] in
  mkRequest "GET" search_url hdrs None None 30.

(** The folder creation that [_ensure_folder_exists] asks for. *)
Definition creation_request (g : GraphService) (access_token : pyval)
  (folder_name : string) : Request :=
  let create_url := graph_base_url g ++ "/me/drive/root/children" in
  let folder_data := PDict [("name", PStr folder_name);
                            ("folder", PDict []);
                            ("@microsoft.graph.conflictBehavior", PStr "rename")] in
  mkRequest "POST" create_url
    [("Authorization", "Bearer " ++ py_str rt access_token);
     ("Content-Type", "application/json")]
    None (Some folder_data) 30.

(** The second half of [_ensure_folder_exists]: the creation step. *)
Definition create_folder (access_token : pyval) (folder_name : string) : M pyval :=
  g <- self ;;
  create_resp <- requests_send (creation_request g access_token folder_name) ;;
  if is_200_or_201 (status_code create_resp) then
    folder_info <- lift (json create_resp) ;;
    folder_id <- lift (get folder_info "id") ;;
    ret folder_id
  else ret PNone.

(** [GraphService._ensure_folder_exists] *)
Definition _ensure_folder_exists (access_token : pyval) (folder_name : string)
  : M pyval :=
  try_except
    (g <- self ;;
     response <- requests_send (listing_request g access_token) ;;
     found <-
       (if status_code response =? 200 then
          body <- lift (json response) ;;
          value <- lift (get_default body "value" (PList [])) ;;
          items <- lift (iter value) ;;
          lift (find_folder folder_name items)
        else ret None) ;;
     match found with
     | Some folder_id => ret folder_id
     | None => create_folder access_token folder_name
     end)
    (fun _ => ret PNone).

(** The naming rule of [_get_unique_filename] at the instant [d]. *)
Definition unique_filename_at (d : datetime) (file_name user_id : string)
  : Result string :=
  match (if has_dot file_name
         then unpack2 (rsplit_dot_1 file_name)
         else Ok (file_name, "")) with
  | Raise e => Raise e
  | Ok (name, ext) =>
      let timestamp := strftime_Ymd_HMS d in
      let unique_name := name ++ "_" ++ user_id ++ "_" ++ timestamp in
      Ok (if negb (String.eqb ext "") then unique_name ++ "." ++ ext
          else unique_name)
  end.

(** [GraphService._get_unique_filename] *)
Definition _get_unique_filename (file_name user_id : string) : M string :=
  d <- datetime_now ;;
  lift (unique_filename_at d file_name user_id).

Definition is_False (v : pyval) : bool :=
  match v with PBool false => true | _ => false end.

Definition failure (msg : string) : pyval :=
  PDict [("success", PBool false); ("error", PStr msg)].

(** [GraphService.upload_to_onedrive] *)
Definition upload_to_onedrive (file_content : pyval) (file_name user_id : string)
  : M pyval :=
  configured <- is_configured ;;
  if negb (truthy configured) then
    ret (failure "OneDrive non configuré")
  else
  g <- self ;;
  if is_False (onedrive_upload_enabled g) then
    ret (PDict [("success", PBool true);
                ("info", PStr "Upload OneDrive désactivé")])
  else
  try_except
    (access_token <- _get_access_token ;;
     if negb (truthy access_token) then
       ret (failure "Impossible d'obtenir le token d'accès Microsoft Graph")
     else
     folder_id <- _ensure_folder_exists access_token (onedrive_folder g) ;;
     if negb (truthy folder_id) then
       ret (failure "Impossible de créer/accéder au dossier OneDrive")
     else
     unique_filename <- _get_unique_filename file_name user_id ;;
     let upload_url := graph_base_url g ++ "/me/drive/items/"
                       ++ py_str rt folder_id ++ ":/" ++ unique_filename
                       ++ ":/content" in
     let hdrs := [("Authorization", "Bearer " ++ py_str rt access_token);
                  ("Content-Type", "application/octet-stream")] in
     response <- requests_send
                   (mkRequest "PUT" upload_url hdrs (Some file_content) None 60) ;;
     if is_200_or_201 (status_code response) then
       file_info <- lift (json response) ;;
       onedrive_url <- lift (get file_info "webUrl") ;;
       file_id <- lift (get file_info "id") ;;
       ret (PDict [("success", PBool true);
                   ("onedrive_url", onedrive_url);
                   ("file_id", file_id);
                   ("file_name", PStr unique_filename)])
     else
       let error_msg := "Erreur HTTP " ++ py_str rt (PInt (status_code response))
                        ++ ": " ++ text response in
       ret (failure error_msg))
    (fun e => ret (failure ("Erreur interne: " ++ exn_msg e))).

End Service.

(* ===================================================================== *)
(** ** The HTTP handlers of [function_app.py] *)
(* ===================================================================== *)

(** What a handler reads of a [func.HttpRequest]: the raw body, the
    outcome of [req.get_json()] on it, the query parameters and the route
    parameters. *)
Record HttpRequest : Type := mkHttpRequest {
  get_body : string;
  get_json : Result pyval;
  params : list (string * string);
  route_params : list (string * string)
}.

Inductive Body : Type :=
| ErrorBody (message : pyval)
| JsonBody (payload : pyval).

Record HttpResponse : Type := mkHttpResponse {
  http_status : Z;
  http_body : Body
}.

(** Modelled from the spec: [shared.utils.response_helper] is outside the
    two modules embedded here.  Following sections 1, 6 and 7 of the
    specification,
    [create_response] wraps a payload and [create_error_response] a message
    into the uniform JSON envelope, each with the status code it is given. *)
Definition create_response (payload : pyval) (status : Z) : HttpResponse :=
  mkHttpResponse status (JsonBody payload).

Definition create_error_response (message : pyval) (status : Z) : HttpResponse :=
  mkHttpResponse status (ErrorBody message).

(** The collaborators [function_app.py] imports from other modules
    ([BlobService], [TranslationService], [StatusHandler],
    [shared.models.schemas]) and the process environment.  Each call
    yields a value or raises. *)
Record Services : Type := mkServices {
  BlobService_new : Result unit;
  check_blob_exists : pyval -> Result pyval;
  prepare_translation_urls : pyval -> pyval -> Result pyval;
  TranslationService_new : Result unit;
  translation_service_start : pyval -> pyval -> pyval -> Result pyval;
  get_translated_file_url : string -> Result pyval;
  download_translated_file : string -> Result pyval;
  check_status : string -> Result pyval;
  os_getenv : string -> Result pyval;
  utcnow_isoformat : string;
  get_all_languages : Result pyval;
  get_all_formats : Result pyval
}.

(** [d.get(k)] on a string-to-string mapping. *)
Fixpoint lookup (k : string) (d : list (string * string)) : option string :=
  match d with
  | [] => None
  | (k', v) :: r => if String.eqb k k' then Some v else lookup k r
  end.

(** [not p] for an optional string parameter. *)
Definition absent (p : option string) : bool :=
  match p with
  | Some s => String.eqb s ""
  | None => true
  end.

Definition param_value (p : option string) : string :=
  match p with Some s => s | None => "" end.

(** The loop over [required_fields]: the first field not in [data]. *)
Fixpoint first_missing (fields : list string) (data : pyval)
  : Result (option string) :=
  match fields with
  | [] => Ok None
  | field :: rest =>
      match contains field data with
      | Raise e => Raise e
      | Ok true => first_missing rest data
      | Ok false => Ok (Some field)
      end
  end.

(** [len(v)] *)
Definition py_len (v : pyval) : Result Z :=
  match v with
  | PStr s => Ok (Z.of_nat (String.length s))
  | PList l => Ok (Z.of_nat (List.length l))
  | PDict d => Ok (Z.of_nat (List.length d))
  | _ => Raise (TypeError ("object of type '" ++ type_name v ++ "' has no len()"))
  end.

(** [ValueError] and the classes below it that decoding a request body
    can raise. *)
Definition ValueError_classes : list string :=
  ["ValueError"; "JSONDecodeError"; "UnicodeError"; "UnicodeDecodeError";
   "UnicodeEncodeError"; "UnicodeTranslateError"].

(** [isinstance(e, ValueError)], the test of [except ValueError]. *)
Definition is_ValueError (e : Exn) : bool :=
  existsb (String.eqb (exn_class e)) ValueError_classes.

Section Handlers.

Variable rt : Runtime.
Variable sv : Services.
Variable cfg : Config.

(** The [try] block of [start_translation]. *)
Definition start_translation_try (req : HttpRequest) : M HttpResponse :=
  if String.eqb (get_body req) "" then
    ret (create_error_response (PStr "Corps de requête manquant") 400)
  else
  match get_json req with
  | Raise e =>
      if is_ValueError e
      then ret (create_error_response (PStr ("JSON invalide: " ++ exn_msg e)) 400)
      else lift (Raise e)
  | Ok data =>
      missing <- lift (first_missing ["blob_name"; "target_language"; "user_id"] data) ;;
      match missing with
      | Some field =>
          ret (create_error_response (PStr ("Paramètre manquant: " ++ field)) 400)
      | None =>
          blob_name <- lift (subscript data "blob_name") ;;
          target_language <- lift (subscript data "target_language") ;;
          user_id <- lift (subscript data "user_id") ;;
          lift (BlobService_new sv) ;;;
          blob_exists <- lift (check_blob_exists sv blob_name) ;;
          if negb (truthy blob_exists) then
            ret (create_error_response
                   (PStr ("Fichier '" ++ py_str rt blob_name ++ "' non trouvé")) 404)
          else
          blob_urls <- lift (prepare_translation_urls sv blob_name target_language) ;;
          source_url <- lift (subscript blob_urls "source_url") ;;
          target_url <- lift (subscript blob_urls "target_url") ;;
          lift (TranslationService_new sv) ;;;
          translation_id <- lift (translation_service_start sv source_url target_url
                                    target_language) ;;
          let result :=
            PDict [("success", PBool true);
                   ("translation_id", translation_id);
                   ("message", PStr ("Traduction démarrée avec succès pour "
                                     ++ py_str rt blob_name));
                   ("status", PStr "En cours");
                   ("target_language", target_language);
                   ("estimated_time", PStr "2-5 minutes")] in
          ret (create_response result 202)
      end
  end.

Definition start_translation_except (e : Exn) : HttpResponse :=
  create_error_response (PStr ("Erreur lors de la traduction: " ++ exn_msg e)) 500.

(** [start_translation] *)
Definition start_translation (req : HttpRequest) : M HttpResponse :=
  try_except (start_translation_try req)
             (fun e => ret (start_translation_except e)).

(** The [try] block of [check_translation_status]. *)
Definition check_translation_status_try (translation_id : string) : M HttpResponse :=
  result <- lift (check_status sv translation_id) ;;
  success <- lift (subscript result "success") ;;
  if truthy success then
    payload <- lift (subscript result "data") ;;
    ret (create_response payload 200)
  else
    message <- lift (subscript result "message") ;;
    ret (create_error_response message 404).

Definition check_translation_status_except (e : Exn) : HttpResponse :=
  create_error_response (PStr ("Erreur interne: " ++ exn_msg e)) 500.

(** [check_translation_status] *)
Definition check_translation_status (req : HttpRequest) : M HttpResponse :=
  let translation_id := lookup "translation_id" (route_params req) in
  if absent translation_id then
    ret (create_error_response (PStr "ID de traduction manquant") 400)
  else
    try_except (check_translation_status_try (param_value translation_id))
               (fun e => ret (check_translation_status_except e)).

(** The first two lines of the [try] block of [get_translation_result]:
    the name of the output blob. *)
Definition output_blob_name (blob_name target_language : string) : Result string :=
  match unpack2 (rsplit_dot_1 blob_name) with
  | Raise e => Raise e
  | Ok (file_base, file_ext) =>
      Ok (file_base ++ "-" ++ target_language ++ "." ++ file_ext)
  end.

(** The [try] block of [get_translation_result]. *)
Definition get_translation_result_try
  (blob_name target_language : string) (user_id : option string) : M HttpResponse :=
  out_name <- lift (output_blob_name blob_name target_language) ;;
  download_url <- lift (get_translated_file_url sv out_name) ;;
  if negb (truthy download_url) then
    ret (create_error_response (PStr "Fichier traduit introuvable") 404)
  else
  if negb (absent user_id) then
    file_content <- lift (download_translated_file sv out_name) ;;
    onedrive_url <- upload_to_onedrive rt file_content out_name (param_value user_id) ;;
    ret (create_response (PDict [("download_url", download_url);
                                 ("onedrive_url", onedrive_url)]) 200)
  else
    ret (create_response (PDict [("download_url", download_url)]) 200).

Definition get_translation_result_except (e : Exn) : HttpResponse :=
  create_error_response (PStr ("Erreur interne: " ++ exn_msg e)) 500.

(** [get_translation_result] *)
Definition get_translation_result (req : HttpRequest) : M HttpResponse :=
  let blob_name := lookup "blob_name" (params req) in
  let target_language := lookup "target_language" (params req) in
  let user_id := lookup "user_id" (params req) in
  if absent blob_name || absent target_language then
    ret (create_error_response
           (PStr "Paramètres manquants : blob_name, target_language") 400)
  else
    try_except
      (get_translation_result_try (param_value blob_name)
         (param_value target_language) user_id)
      (fun e => ret (get_translation_result_except e)).

(** The list comprehension of [health_check]: the variables [os.getenv]
    gives no value for. *)
Fixpoint missing_vars (vars : list string) : Result (list string) :=
  match vars with
  | [] => Ok []
  | var :: rest =>
      match os_getenv sv var with
      | Raise e => Raise e
      | Ok v =>
          match missing_vars rest with
          | Raise e => Raise e
          | Ok m => Ok (if negb (truthy v) then var :: m else m)
          end
      end
  end.

Definition required_vars : list string :=
  ["TRANSLATOR_KEY"; "TRANSLATOR_ENDPOINT"; "AZURE_ACCOUNT_NAME"; "AZURE_ACCOUNT_KEY"].

(** The [try] block of [health_check]. *)
Definition health_check_try : M HttpResponse :=
  missing <- lift (missing_vars required_vars) ;;
  match missing with
  | _ :: _ =>
      ret (create_error_response
             (PStr ("Variables d'environnement manquantes: "
                    ++ String.concat ", " missing)) 503)
  | [] =>
      let od_available :=
        if truthy (ONEDRIVE_UPLOAD_ENABLED cfg) then "available" else "not configured" in
      let health_data :=
        PDict [("status", PStr "healthy");
               ("timestamp", PStr (utcnow_isoformat sv));
               ("services", PDict [("translator", PStr "available");
                                   ("blob_storage", PStr "available");
                                   ("onedrive", PStr od_available)])] in
      ret (create_response health_data 200)
  end.

Definition health_check_except (e : Exn) : HttpResponse :=
  create_error_response (PStr ("Service unhealthy: " ++ exn_msg e)) 503.

(** [health_check] *)
Definition health_check (req : HttpRequest) : M HttpResponse :=
  try_except health_check_try (fun e => ret (health_check_except e)).

(** The [try] block shared in shape by [get_supported_languages] and
    [get_supported_formats]. *)
Definition listing_try (key : string) (source : Result pyval) : M HttpResponse :=
  items <- lift source ;;
  count <- lift (py_len items) ;;
  ret (create_response (PDict [(key, items); ("count", PInt count)]) 200).

Definition get_supported_languages_except (e : Exn) : HttpResponse :=
  create_error_response (PStr ("Erreur interne: " ++ exn_msg e)) 500.

(** [get_supported_languages] *)
Definition get_supported_languages (req : HttpRequest) : M HttpResponse :=
  try_except (listing_try "languages" (get_all_languages sv))
             (fun e => ret (get_supported_languages_except e)).

Definition get_supported_formats_except (e : Exn) : HttpResponse :=
  create_error_response (PStr ("Erreur interne: " ++ exn_msg e)) 500.

(** [get_supported_formats] *)
Definition get_supported_formats (req : HttpRequest) : M HttpResponse :=
  try_except (listing_try "formats" (get_all_formats sv))
             (fun e => ret (get_supported_formats_except e)).

(** The six routes of the application. *)
Inductive Handler : Type :=
| StartTranslation
| CheckTranslationStatus
| GetTranslationResult
| HealthCheck
| GetSupportedLanguages
| GetSupportedFormats.

Definition handle (h : Handler) (req : HttpRequest) : M HttpResponse :=
  match h with
  | StartTranslation => start_translation req
  | CheckTranslationStatus => check_translation_status req
  | GetTranslationResult => get_translation_result req
  | HealthCheck => health_check req
  | GetSupportedLanguages => get_supported_languages req
  | GetSupportedFormats => get_supported_formats req
  end.

(** The [try] block a handler enters on [req]; none when the handler
    answers from the parameter check that precedes it. *)
Definition try_block (h : Handler) (req : HttpRequest) : option (M HttpResponse) :=
  match h with
  | StartTranslation => Some (start_translation_try req)
  | CheckTranslationStatus =>
      let translation_id := lookup "translation_id" (route_params req) in
      if absent translation_id then None
      else Some (check_translation_status_try (param_value translation_id))
  | GetTranslationResult =>
      let blob_name := lookup "blob_name" (params req) in
      let target_language := lookup "target_language" (params req) in
      if absent blob_name || absent target_language then None
      else Some (get_translation_result_try (param_value blob_name)
                   (param_value target_language) (lookup "user_id" (params req)))
  | HealthCheck => Some health_check_try
  | GetSupportedLanguages => Some (listing_try "languages" (get_all_languages sv))
  | GetSupportedFormats => Some (listing_try "formats" (get_all_formats sv))
  end.

(** The [except Exception as e] clause that closes each handler. *)
Definition except_clause (h : Handler) (e : Exn) : HttpResponse :=
  match h with
  | StartTranslation => start_translation_except e
  | CheckTranslationStatus => check_translation_status_except e
  | GetTranslationResult => get_translation_result_except e
  | HealthCheck => health_check_except e
  | GetSupportedLanguages => get_supported_languages_except e
  | GetSupportedFormats => get_supported_formats_except e
  end.

End Handlers.

(* ===================================================================== *)
(** ** The other drive operations of [GraphService] *)
(* ===================================================================== *)

(** [r >>= k] on results. *)
Definition and_then {A B} (r : Result A) (k : A -> Result B) : Result B :=
  match r with
  | Ok a => k a
  | Raise e => Raise e
  end.

(** The dict [get_folder_contents] appends for one listed file. *)
Definition file_entry (item : pyval) : Result pyval :=
  and_then (get item "name") (fun name =>
  and_then (get item "id") (fun id =>
  and_then (get item "size") (fun size =>
  and_then (get item "createdDateTime") (fun created =>
  and_then (get item "lastModifiedDateTime") (fun modified =>
  and_then (get item "@microsoft.graph.downloadUrl") (fun download_url =>
  and_then (get item "webUrl") (fun web_url =>
  Ok (PDict [("name", name); ("id", id); ("size", size);
             ("created", created); ("modified", modified);
             ("download_url", download_url); ("web_url", web_url)])))))))).

(** The loop of [get_folder_contents]: an entry for each item that has a
    [file] facet, in the order listed. *)
Fixpoint file_entries (items : list pyval) : Result (list pyval) :=
  match items with
  | [] => Ok []
  | item :: rest =>
      and_then (contains "file" item) (fun is_file =>
      if is_file then
        and_then (file_entry item) (fun entry =>
        and_then (file_entries rest) (fun entries => Ok (entry :: entries)))
      else file_entries rest)
  end.

(** The test of the loop of [_ensure_folder_exists] on a listed item
    with the fields [d]: the name is the requested one and the [folder]
    facet is there. *)
Definition names_folder (folder_name : string) (d : list (string * pyval)) : bool :=
  is_str (match assoc "name" d with Some x => x | None => PNone end) folder_name
  && negb (is_none (match assoc "folder" d with Some x => x | None => PNone end)).

(** [d.get(k)] on the fields of a dict. *)
Definition field (k : string) (d : list (string * pyval)) : pyval :=
  match assoc k d with Some x => x | None => PNone end.

(** What [_ensure_folder_exists] makes of a listing response with status
    200: the outcome of its loop over the listed items. *)
Definition listed_folder (folder_name : string) (response : Response)
  : Result (option pyval) :=
  and_then (json response) (fun body =>
  and_then (get_default body "value" (PList [])) (fun value =>
  and_then (iter value) (fun items =>
  find_folder folder_name items))).

(** [w'] is [w] after at most [n] more requests. *)
Definition at_most_more (n : nat) (w w' : World) : Prop :=
  exists l, sent w' = (sent w ++ l)%list /\ (List.length l <= n)%nat.

(** The entry [get_folder_contents] builds from the fields of a listed
    file. *)
Definition entry_of (d : list (string * pyval)) : pyval :=
  PDict [("name", field "name" d); ("id", field "id" d); ("size", field "size" d);
         ("created", field "createdDateTime" d);
         ("modified", field "lastModifiedDateTime" d);
         ("download_url", field "@microsoft.graph.downloadUrl" d);
         ("web_url", field "webUrl" d)].

(** ['file' in d] on the fields of a dict. *)
Definition has_file (d : list (string * pyval)) : bool :=
  match assoc "file" d with Some _ => true | None => false end.

(** The attributes [__init__] fixes once and for all. *)
Definition same_settings (g g' : GraphService) : Prop :=
  client_id g' = client_id g /\ client_secret g' = client_secret g /\
  tenant_id g' = tenant_id g /\
  onedrive_upload_enabled g' = onedrive_upload_enabled g /\
  onedrive_folder g' = onedrive_folder g /\
  token_url g' = token_url g /\ graph_base_url g' = graph_base_url g.

Section DriveOperations.

Variable rt : Runtime.

(** The upload that [upload_to_onedrive] asks for. *)
Definition upload_request (g : GraphService) (access_token folder_id : pyval)
  (unique_filename : string) (file_content : pyval) : Request :=
  mkRequest "PUT"
    (graph_base_url g ++ "/me/drive/items/" ++ py_str rt folder_id ++ ":/"
     ++ unique_filename ++ ":/content")
    [("Authorization", "Bearer " ++ py_str rt access_token);
     ("Content-Type", "application/octet-stream")]
    (Some file_content) None 60.

(** The listing [get_folder_contents] asks for at [list_url]. *)
Definition contents_request (list_url : string) (access_token : pyval) : Request :=
  mkRequest "GET" list_url
    [("Authorization", "Bearer " ++ py_str rt access_token)] None None 30.

(** [GraphService.get_folder_contents]; the inner [return] of the folder
    branch is the left injection. *)
Definition get_folder_contents (folder_name : option string) : M pyval :=
  configured <- is_configured rt ;;
  if negb (truthy configured) then
    ret (failure "OneDrive non configuré")
  else
  try_except
    (access_token <- _get_access_token rt ;;
     if negb (truthy access_token) then
       ret (failure "Token d'accès indisponible")
     else
     g <- self ;;
     target <-
       (if negb (absent folder_name) then
          folder_id <- _ensure_folder_exists rt access_token (param_value folder_name) ;;
          if negb (truthy folder_id) then
            ret (inl (failure ("Dossier '" ++ param_value folder_name
                               ++ "' introuvable")))
          else
            ret (inr (graph_base_url g ++ "/me/drive/items/"
                      ++ py_str rt folder_id ++ "/children"))
        else ret (inr (graph_base_url g ++ "/me/drive/root/children"))) ;;
     match target with
     | inl answer => ret answer
     | inr list_url =>
         response <- requests_send rt (contents_request list_url access_token) ;;
         if status_code response =? 200 then
           body <- lift (json response) ;;
           value <- lift (get_default body "value" (PList [])) ;;
           items <- lift (iter value) ;;
           files <- lift (file_entries items) ;;
           ret (PDict [("success", PBool true);
                       ("files", PList files);
                       ("count", PInt (Z.of_nat (List.length files)))])
         else
           let error_msg := "Erreur HTTP " ++ py_str rt (PInt (status_code response))
                            ++ ": " ++ text response in
           ret (failure error_msg)
     end)
    (fun e => ret (failure ("Erreur interne: " ++ exn_msg e))).

(** The deletion [delete_file] asks for. *)
Definition delete_request (g : GraphService) (access_token : pyval)
  (file_id : string) : Request :=
  mkRequest "DELETE" (graph_base_url g ++ "/me/drive/items/" ++ file_id)
    [("Authorization", "Bearer " ++ py_str rt access_token)] None None 30.

(** [GraphService.delete_file] *)
Definition delete_file (file_id : string) : M pyval :=
  configured <- is_configured rt ;;
  if negb (truthy configured) then
    ret (failure "OneDrive non configuré")
  else
  try_except
    (access_token <- _get_access_token rt ;;
     if negb (truthy access_token) then
       ret (failure "Token d'accès indisponible")
     else
     g <- self ;;
     response <- requests_send rt (delete_request g access_token file_id) ;;
     if status_code response =? 204 then
       ret (PDict [("success", PBool true);
                   ("message", PStr "Fichier supprimé avec succès")])
     else
       let error_msg := "Erreur HTTP " ++ py_str rt (PInt (status_code response))
                        ++ ": " ++ text response in
       ret (failure error_msg))
    (fun e => ret (failure ("Erreur interne: " ++ exn_msg e))).

End DriveOperations.

(* ===================================================================== *)
(** ** Concrete worlds used by the examples *)
(* ===================================================================== *)

Module Demo.

Definition instant : datetime := mkDatetime 2024 1 2 3 4 5 0.

Definition str_demo (v : pyval) : string :=
  match v with
  | PNone => "None"
  | PBool true => "True"
  | PBool false => "False"
  | _ => "?"
  end.

(** A token endpoint that grants the token [tok] for [lifetime] seconds;
    every call takes one second. *)
Definition token_granted (lifetime : Z) : Response :=
  mkResponse 200
    (Ok (PDict [("access_token", PStr "tok"); ("expires_in", PInt lifetime)])) "".

Definition provider (lifetime : Z) : Runtime :=
  mkRuntime (fun _ t _ => (t + 1, Ok (token_granted lifetime)))
            (fun _ => instant) str_demo (Ok (PBool true)).

(** A token endpoint whose 200 answer gives a lifetime that is not a
    number. *)
Definition lifetime_as_text : Runtime :=
  mkRuntime
    (fun _ t _ =>
       (t + 1, Ok (mkResponse 200
                     (Ok (PDict [("access_token", PStr "new");
                                 ("expires_in", PStr "3600")])) "")))
    (fun _ => instant) str_demo (Ok (PBool true)).

(** A transport that answers every call with the same status and body. *)
Definition always (status : Z) (body : string) : Runtime :=
  mkRuntime (fun _ t _ => (t + 1, Ok (mkResponse status (Raise (ValueError "no JSON")) body)))
            (fun _ => instant) str_demo (Ok (PBool true)).

(** A drive whose listing answers 500 and whose folder creation answers
    201 with the id [F1]. *)
Definition drive_listing_down : Runtime :=
  mkRuntime
    (fun _ t r =>
       if String.eqb (method r) "GET"
       then (t + 1, Ok (mkResponse 500 (Raise (ValueError "no JSON")) "listing failed"))
       else (t + 1, Ok (mkResponse 201 (Ok (PDict [("id", PStr "F1")])) "")))
    (fun _ => instant) str_demo (Ok (PBool true)).

(** A deployment whose [Config.is_onedrive_enabled()] answers [False]. *)
Definition not_configured : Runtime :=
  mkRuntime (fun _ t _ => (t + 1, Ok (token_granted 3600)))
            (fun _ => instant) str_demo (Ok (PBool false)).

(** Collaborators that all succeed: the blob exists, the URLs are built,
    the engine assigns the job [job-1]. *)
Definition services : Services :=
  mkServices (Ok tt)
    (fun _ => Ok (PBool true))
    (fun _ _ => Ok (PDict [("source_url", PStr "https://blob/src");
                           ("target_url", PStr "https://blob/dst")]))
    (Ok tt)
    (fun _ _ _ => Ok (PStr "job-1"))
    (fun _ => Ok (PStr "https://blob/out"))
    (fun _ => Ok (PStr "bytes"))
    (fun _ => Ok (PDict [("success", PBool true); ("data", PDict [])]))
    (fun _ => Ok (PStr "set"))
    "2024-01-02T03:04:05+00:00"
    (Ok (PList [])) (Ok (PList [])).


(** The same, with an environment lookup that raises. *)
Definition environment_down : Services :=
  mkServices (Ok tt)
    (check_blob_exists services)
    (prepare_translation_urls services) (Ok tt)
    (translation_service_start services)
    (get_translated_file_url services) (download_translated_file services)
    (check_status services)
    (fun _ => Raise (mkExn "OSError" "environment unavailable"))
    (utcnow_isoformat services)
    (get_all_languages services) (get_all_formats services).

(** A [start_translation] request for [doc.docx] into Spanish. *)
Definition start_request : HttpRequest :=
  mkHttpRequest "{...}"
    (Ok (PDict [("blob_name", PStr "doc.docx");
                ("target_language", PStr "es");
                ("user_id", PStr "u1")]))
    [] [].

(** A [get_result] request with the given query parameters. *)
Definition result_request (query : list (string * string)) : HttpRequest :=
  mkHttpRequest "" (Raise (ValueError "no body")) query [].

Definition config : Config :=
  mkConfig (PStr "id") (PStr "secret") (PStr "tenant") (PBool true) None.

Definition fresh_service : GraphService := GraphService_init (provider 3600) config.

Definition world_at (t : Z) : World := mkWorld t [].

(** The same service with the drive mirror switched off. *)
Definition disabled_service : GraphService :=
  GraphService_init (provider 3600)
    (mkConfig (PStr "id") (PStr "secret") (PStr "tenant") (PBool false) None).

(** Three listed items: a file, the folder of translated documents, and
    a file that bears the folder's name. *)
Definition notes_file : list (string * pyval) :=
  [("name", PStr "notes.txt"); ("id", PStr "f1"); ("size", PInt 12);
   ("file", PDict [("mimeType", PStr "text/plain")])].

Definition documents_folder : list (string * pyval) :=
  [("name", PStr "Translated Documents"); ("id", PStr "F0");
   ("folder", PDict [("childCount", PInt 0)])].

Definition namesake_file : list (string * pyval) :=
  [("name", PStr "Translated Documents"); ("id", PStr "f2"); ("size", PInt 3);
   ("file", PDict [("mimeType", PStr "text/plain")])].

(** A drive that lists [items], creates folders as [F1], stores files as
    [file-1], deletes with 204, and whose identity provider grants [tok]
    for an hour. *)
Definition drive (items : list pyval) : Runtime :=
  mkRuntime
    (fun _ t r =>
       if String.eqb (method r) "GET" then
         (t + 1, Ok (mkResponse 200 (Ok (PDict [("value", PList items)])) ""))
       else if String.eqb (method r) "PUT" then
         (t + 1, Ok (mkResponse 201
                       (Ok (PDict [("id", PStr "file-1");
                                   ("webUrl", PStr "https://drive/file-1")])) ""))
       else if String.eqb (method r) "DELETE" then
         (t + 1, Ok (mkResponse 204 (Raise (ValueError "no JSON")) ""))
       else
         match json_body r with
         | Some _ => (t + 1, Ok (mkResponse 201 (Ok (PDict [("id", PStr "F1")])) ""))
         | None => (t + 1, Ok (token_granted 3600))
         end)
    (fun _ => instant) str_demo (Ok (PBool true)).

(** A drive that lists nothing and refuses every write with 403. *)
Definition drive_read_only : Runtime :=
  mkRuntime
    (fun _ t r =>
       if String.eqb (method r) "GET" then
         (t + 1, Ok (mkResponse 200 (Ok (PDict [("value", PList [])])) ""))
       else
         match data r with
         | Some _ =>
             if String.eqb (method r) "POST" then (t + 1, Ok (token_granted 3600))
             else (t + 1, Ok (mkResponse 403 (Raise (ValueError "no JSON")) "read only"))
         | None =>
             (t + 1, Ok (mkResponse 403 (Raise (ValueError "no JSON")) "read only"))
         end)
    (fun _ => instant) str_demo (Ok (PBool true)).

(** Collaborators whose translation engine raises. *)
Definition engine_down : Services :=
  mkServices (Ok tt)
    (check_blob_exists services)
    (prepare_translation_urls services) (Ok tt)
    (fun _ _ _ => Raise (mkExn "RuntimeError" "engine unavailable"))
    (get_translated_file_url services) (download_translated_file services)
    (check_status services) (os_getenv services) (utcnow_isoformat services)
    (get_all_languages services) (get_all_formats services).

(** Collaborators whose blob store has no translated file. *)
Definition no_output : Services :=
  mkServices (Ok tt)
    (check_blob_exists services)
    (prepare_translation_urls services) (Ok tt)
    (translation_service_start services)
    (fun _ => Ok PNone) (download_translated_file services)
    (check_status services) (os_getenv services) (utcnow_isoformat services)
    (get_all_languages services) (get_all_formats services).

(** An environment in which the two keys are unset. *)
Definition environment_value (var : string) : pyval :=
  if String.eqb var "TRANSLATOR_KEY" || String.eqb var "AZURE_ACCOUNT_KEY"
  then PNone else PStr "set".

Definition keys_unset : Services :=
  mkServices (Ok tt)
    (check_blob_exists services)
    (prepare_translation_urls services) (Ok tt)
    (translation_service_start services)
    (get_translated_file_url services) (download_translated_file services)
    (check_status services)
    (fun var => Ok (environment_value var))
    (utcnow_isoformat services)
    (get_all_languages services) (get_all_formats services).


(** A [start_translation] request whose body is not JSON. *)
Definition bad_json_request : HttpRequest :=
  mkHttpRequest "not json"
    (Raise (mkExn "JSONDecodeError" "Expecting value: line 1 column 1 (char 0)"))
    [] [].

(** A [start_translation] request without [target_language]. *)
Definition incomplete_request : HttpRequest :=
  mkHttpRequest "{...}"
    (Ok (PDict [("blob_name", PStr "doc.docx"); ("user_id", PStr "u1")]))
    [] [].

(** Collaborators whose language table is missing. *)
Definition no_languages : Services :=
  mkServices (Ok tt)
    (check_blob_exists services)
    (prepare_translation_urls services) (Ok tt)
    (translation_service_start services)
    (get_translated_file_url services) (download_translated_file services)
    (check_status services) (os_getenv services) (utcnow_isoformat services)
    (Ok PNone) (get_all_formats services).

(** A [start_translation] request whose body is a JSON array. *)
Definition array_request : HttpRequest :=
  mkHttpRequest "[...]"
    (Ok (PList [PStr "blob_name"; PStr "target_language"; PStr "user_id"]))
    [] [].

(** A [check_status] request for the job [job-1]. *)
Definition status_request : HttpRequest :=
  mkHttpRequest "" (Raise (ValueError "no body")) [] [("translation_id", "job-1")].

End Demo.

(* ===================================================================== *)
(** ** The credential cache *)
(* ===================================================================== *)

Section CredentialCache.

Variable rt : Runtime.

Ltac run_token :=
  unfold _get_access_token, try_except, bind, self, ret, lift, assign,
    time_time, requests_send; simpl.

Lemma cache_valid_inv g t :
  cache_valid g t = true ->
  truthy (_access_token g) = true /\
  expiry_truthy (_token_expires_at g) = true /\
  t < expiry_value (_token_expires_at g) - 300.
Proof.
  unfold cache_valid. intros H.
  apply andb_prop in H. destruct H as [H Hlt].
  apply andb_prop in H. destruct H as [Htok Hexp].
  apply Z.ltb_lt in Hlt. auto.
Qed.

(** A valid cache answers the call by itself. *)
Lemma get_access_token_hit g w :
  cache_valid g (now w) = true ->
  _get_access_token rt g w = (Ok (_access_token g), g, w).
Proof.
  intros H. destruct (cache_valid_inv _ _ H) as (Htok & Hexp & Hlt).
  run_token. rewrite Htok, Hexp. simpl.
  apply Z.ltb_lt in Hlt. rewrite Hlt. reflexivity.
Qed.

Lemma get_access_token_miss g w :
  cache_valid g (now w) = false ->
  _get_access_token rt g w = refreshed rt g w.
Proof.
  intros H. unfold refreshed. run_token.
  assert (E :
    (if truthy (_access_token g) && expiry_truthy (_token_expires_at g)
     then (if now w <? expiry_value (_token_expires_at g) - 300
           then Some (_access_token g) else None)
     else @None pyval) = None).
  { unfold cache_valid in H.
    destruct (truthy (_access_token g) && expiry_truthy (_token_expires_at g));
      simpl in H; [rewrite H|]; reflexivity. }
  destruct (truthy (_access_token g) && expiry_truthy (_token_expires_at g));
    simpl in *.
  - destruct (now w <? expiry_value (_token_expires_at g) - 300);
      [discriminate E|].
    destruct (transport rt (sent w) (now w) (token_request g)) as [t [resp|e]];
      simpl; [|reflexivity].
    destruct (status_code resp =? 200); simpl; [|reflexivity].
    destruct (json resp) as [td|e]; simpl; [|reflexivity].
    destruct (get td "access_token") as [tok|e]; simpl; [|reflexivity].
    destruct (get_default td "expires_in" (PInt 3600)) as [ei|e]; simpl; [|reflexivity].
    destruct (add_seconds t ei) as [ea|e]; simpl; reflexivity.
  - destruct (transport rt (sent w) (now w) (token_request g)) as [t [resp|e]];
      simpl; [|reflexivity].
    destruct (status_code resp =? 200); simpl; [|reflexivity].
    destruct (json resp) as [td|e]; simpl; [|reflexivity].
    destruct (get td "access_token") as [tok|e]; simpl; [|reflexivity].
    destruct (get_default td "expires_in" (PInt 3600)) as [ei|e]; simpl; [|reflexivity].
    destruct (add_seconds t ei) as [ea|e]; simpl; reflexivity.
Qed.


(** A call never raises: every failure is answered with [None]. *)
Lemma get_access_token_total g w :
  exists v g' w', _get_access_token rt g w = (Ok v, g', w').
Proof.
  destruct (cache_valid g (now w)) eqn:V.
  - rewrite (get_access_token_hit _ _ V). eauto.
  - rewrite (get_access_token_miss _ _ V). unfold refreshed.
    destruct (transport rt (sent w) (now w) (token_request g)) as [t [resp|e]];
      eauto.
    destruct (status_code resp =? 200); eauto.
    destruct (json resp); eauto.
    destruct (get a "access_token"); eauto.
    destruct (get_default a "expires_in" (PInt 3600)); eauto.
    destruct (add_seconds t a1); eauto.
Qed.

(** A value other than [None] that the call returns is the token the
    cache holds afterwards. *)
Lemma returned_token_is_cached g w v g' w' :
  _get_access_token rt g w = (Ok v, g', w') ->
  v <> PNone ->
  v = _access_token g'.
Proof.
  intros Run Hv.
  destruct (cache_valid g (now w)) eqn:V.
  - rewrite (get_access_token_hit _ _ V) in Run. inversion Run; subst. reflexivity.
  - rewrite (get_access_token_miss _ _ V) in Run. unfold refreshed in Run.
    destruct (transport rt (sent w) (now w) (token_request g)) as [t [resp|e]];
      [|inversion Run; subst; contradiction].
    destruct (status_code resp =? 200); [|inversion Run; subst; contradiction].
    destruct (json resp) as [td|e]; [|inversion Run; subst; contradiction].
    destruct (get td "access_token") as [tok|e];
      [|inversion Run; subst; contradiction].
    destruct (get_default td "expires_in" (PInt 3600)) as [ei|e];
      [|inversion Run; subst; contradiction].
    destruct (add_seconds t ei) as [ea|e];
      inversion Run; subst; [reflexivity | contradiction].
Qed.


(** C2.  When the cache holds a token and an expiry, and the expiry less
    the 300-second margin is later than the clock, the call returns the
    cached token, sends no request (the world, with its list of sent
    requests, is unchanged) and leaves the cache as it was.  If that cache
    is what an earlier call left after returning the token [v], the call
    returns [v] again. *)
Theorem valid_cache_answers_without_network g w :
  cache_valid g (now w) = true ->
  _get_access_token rt g w = (Ok (_access_token g), g, w) /\
  sent (snd (_get_access_token rt g w)) = sent w /\
  (forall g0 w0 v w1,
      _get_access_token rt g0 w0 = (Ok v, g, w1) ->
      v <> PNone ->
      _get_access_token rt g w = (Ok v, g, w)).
Proof.
  intros V. pose proof (get_access_token_hit _ _ V) as Hit.
  split; [exact Hit|]. split; [rewrite Hit; reflexivity|].
  intros g0 w0 v w1 First Hv.
  rewrite (returned_token_is_cached _ _ _ _ _ First Hv). exact Hit.
Qed.

(** With a clock that counts from the epoch, an expiry that lies more
    than the margin ahead is a set expiry. *)
Lemma expiry_ahead_is_set t e :
  0 <= t -> t < e - 300 -> expiry_truthy (Some e) = true.
Proof.
  intros Ht Hlt. simpl. apply negb_true_iff, Z.eqb_neq. lia.
Qed.

(** C9.  When the cache does not answer and the exchange fails (the
    transport raises, the status is not 200, or the 200 response does not
    parse into a token document), the call returns [None] and the cache is
    exactly as before; and whenever a call changes the cache, the token
    endpoint answered with status 200. *)
Theorem failed_refresh_keeps_cache g w :
  (cache_valid g (now w) = false ->
   refresh_failed (snd (transport rt (sent w) (now w) (token_request g))) ->
   fst (_get_access_token rt g w) = (Ok PNone, g)) /\
  (snd (fst (_get_access_token rt g w)) <> g ->
   exists response,
     snd (transport rt (sent w) (now w) (token_request g)) = Ok response /\
     status_code response = 200).
Proof.
  destruct (cache_valid g (now w)) eqn:V.
  { rewrite (get_access_token_hit _ _ V). simpl.
    split; [discriminate | intros C; contradiction]. }
  rewrite (get_access_token_miss _ _ V). unfold refreshed.
  destruct (transport rt (sent w) (now w) (token_request g)) as [t [resp|e]];
    simpl.
  - destruct (status_code resp =? 200) eqn:S.
    + apply Z.eqb_eq in S. split.
      * intros _ [F | [[e F] | (td & e & J & F)]].
        -- contradiction.
        -- rewrite F. reflexivity.
        -- rewrite J, F. reflexivity.
      * intros _. exists resp. auto.
    + split; [reflexivity|]. simpl. intros C. contradiction.
  - split; [reflexivity|]. intros C. contradiction.
Qed.

End CredentialCache.

(* --------------------------------------------------------------------- *)
(** *** The cache on concrete worlds *)



(** The cache a first call at time 1000 leaves, asked again at 2000. *)
Lemma valid_cache_answers_without_network_witness :
  let g := snd (fst (_get_access_token (Demo.provider 3600) Demo.fresh_service
                       (Demo.world_at 1000))) in
  let w := mkWorld 2000 [token_request Demo.fresh_service] in
  cache_valid g (now w) = true /\
  _get_access_token (Demo.provider 3600) g w = (Ok (PStr "tok"), g, w).
Proof.
  intros g w. split; [reflexivity|].
  apply (proj2 (proj2 (valid_cache_answers_without_network (Demo.provider 3600)
                         g w eq_refl))
           Demo.fresh_service (Demo.world_at 1000) (PStr "tok")
           (mkWorld 1001 [token_request Demo.fresh_service])).
  - reflexivity.
  - discriminate.
Defined.

(** Past the parsing of a 200 answer the two attributes are written one
    after the other: a lifetime that cannot be added to the clock raises
    between the two writes, and the call returns [None] with the new token
    beside the old expiry. *)
Example lifetime_as_text_updates_token_only :
  let g := set_token_expires_at (Some 500) (set_access_token (PStr "old") Demo.fresh_service) in
  _get_access_token Demo.lifetime_as_text g (Demo.world_at 1000) =
  (Ok PNone,
   set_access_token (PStr "new") g,
   mkWorld 1001 [token_request g]).
Proof.
  reflexivity.
Qed.

(** A token endpoint that answers 503: the cached, expired token stays. *)
Lemma failed_refresh_keeps_cache_witness :
  let g := set_token_expires_at (Some 500) (set_access_token (PStr "old") Demo.fresh_service) in
  let w := Demo.world_at 1000 in
  cache_valid g (now w) = false /\
  fst (_get_access_token (Demo.always 503 "down") g w) = (Ok PNone, g).
Proof.
  split; [reflexivity|].
  apply (proj1 (failed_refresh_keeps_cache (Demo.always 503 "down") _ _)).
  - reflexivity.
  - simpl. left. discriminate.
Defined.

(* ===================================================================== *)
(** ** The remote folder resolver *)
(* ===================================================================== *)

Section FolderResolver.

Variable rt : Runtime.

Lemma one_more_is_not_two {A} (l : list A) (a b c : A) :
  (l ++ [a] <> l ++ [b; c])%list.
Proof.
  intros H. apply app_inv_head in H. discriminate.
Qed.

(** The creation step sends one request; when that request is answered
    with a status other than 200 and 201 the step yields [None]. *)
Lemma create_folder_run access_token folder_name g w r g' w' :
  create_folder rt access_token folder_name g w = (r, g', w') ->
  g' = g /\
  exists t2 out,
    transport rt (sent w) (now w)
      (creation_request rt g access_token folder_name) = (t2, out) /\
    w' = mkWorld t2 (sent w ++ [creation_request rt g access_token folder_name]) /\
    (forall response, out = Ok response ->
                      is_200_or_201 (status_code response) = false ->
                      r = Ok PNone).
Proof.
  unfold create_folder, bind, self, ret, lift, requests_send.
  destruct (transport rt (sent w) (now w)
              (creation_request rt g access_token folder_name)) as [t2 [resp|e]].
  - destruct (is_200_or_201 (status_code resp)) eqn:S.
    + destruct (json resp) as [fi|e]; [destruct (get fi "id")|];
        intros H; inversion H; subst; split; auto;
        do 2 eexists; repeat split; intros ? E; inversion E; subst; congruence.
    + intros H; inversion H; subst; split; auto.
      do 2 eexists; repeat split.
  - intros H; inversion H; subst; split; auto.
    do 2 eexists; repeat split. intros ? E; discriminate E.
Qed.

(** C3, as amended.  [_ensure_folder_exists] never raises and never
    touches the service object: its result is a folder id or [None].
    Whenever the creation request has been sent and is answered with a
    status other than 200 and 201, the result is [None], a bare value that
    carries neither the status nor the body. *)
Theorem ensure_folder_failure_is_none access_token folder_name g w r g' w' :
  _ensure_folder_exists rt access_token folder_name g w = (r, g', w') ->
  (exists v, r = Ok v) /\ g' = g /\
  (forall t1 o1 t2 response,
      transport rt (sent w) (now w) (listing_request rt g access_token) = (t1, o1) ->
      sent w' = (sent w ++ [listing_request rt g access_token;
                            creation_request rt g access_token folder_name])%list ->
      transport rt (sent w ++ [listing_request rt g access_token]) t1
        (creation_request rt g access_token folder_name) = (t2, Ok response) ->
      is_200_or_201 (status_code response) = false ->
      r = Ok PNone).
Proof.
  unfold _ensure_folder_exists, try_except, bind, self, ret, lift, requests_send.
  set (lreq := listing_request rt g access_token).
  set (creq := creation_request rt g access_token folder_name).
  destruct (transport rt (sent w) (now w) lreq) as [t1' [resp1|e1]].
  2:{ intros H; inversion H; subst. repeat split; eauto. }
  set (w1 := mkWorld t1' (sent w ++ [lreq])).
  assert (Stop : forall v, (Ok v, g, w1) = (r, g', w') ->
    (exists v, r = Ok v) /\ g' = g /\
    (forall t1 o1 t2 response, (t1', Ok resp1) = (t1, o1) ->
      sent w' = (sent w ++ [lreq; creq])%list ->
      transport rt (sent w ++ [lreq]) t1 creq = (t2, Ok response) ->
      is_200_or_201 (status_code response) = false -> r = Ok PNone)).
  { intros v H; inversion H; subst. repeat split; eauto;
      intros ? ? ? ? _ Hs; exfalso; exact (one_more_is_not_two _ _ _ _ Hs). }
  assert (Go :
    match create_folder rt access_token folder_name g w1 with
    | (Ok a, g0, w0) => (Ok a, g0, w0)
    | (Raise _, g0, w0) => (Ok PNone, g0, w0)
    end = (r, g', w') ->
    (exists v, r = Ok v) /\ g' = g /\
    (forall t1 o1 t2 response, (t1', Ok resp1) = (t1, o1) ->
      sent w' = (sent w ++ [lreq; creq])%list ->
      transport rt (sent w ++ [lreq]) t1 creq = (t2, Ok response) ->
      is_200_or_201 (status_code response) = false -> r = Ok PNone)).
  { destruct (create_folder rt access_token folder_name g w1)
      as [[r0 g0] w0] eqn:C.
    destruct (create_folder_run _ _ _ _ _ _ _ C) as (-> & t2' & out & T & -> & Bad).
    fold creq in T, Bad. simpl in T.
    intros H.
    assert (Hr : (exists v, r = Ok v) /\ g' = g /\
                 (forall response, out = Ok response ->
                    is_200_or_201 (status_code response) = false -> r = Ok PNone)).
    { destruct r0; inversion H; subst; repeat split; eauto. }
    destruct Hr as (Hv & Hg & Hbad). repeat split; auto.
    intros t1 o1 t2 response E _ T2 S. inversion E; subst t1 o1.
    rewrite T in T2. inversion T2; subst. eauto. }
  destruct (status_code resp1 =? 200).
  - destruct (json resp1) as [body|e]; [|apply Stop].
    destruct (get_default body "value" (PList [])) as [value|e]; [|apply Stop].
    destruct (iter value) as [items|e]; [|apply Stop].
    destruct (find_folder folder_name items) as [[fid|]|e];
      [apply Stop | exact Go | apply Stop].
  - exact Go.
Qed.

End FolderResolver.

(** C3, as stated, fails: the listing is answered 500, yet the resolver
    goes on to the creation request and returns the id the creation
    gives. *)
Lemma listing_failure_still_creates :
  let rt := Demo.drive_listing_down in
  let g := Demo.fresh_service in
  let r := _ensure_folder_exists rt (PStr "tok") "Docs" g (Demo.world_at 0) in
  transport rt [] 0 (listing_request rt g (PStr "tok")) =
    (1, Ok (mkResponse 500 (Raise (ValueError "no JSON")) "listing failed")) /\
  fst (fst r) = Ok (PStr "F1") /\
  sent (snd r) = [listing_request rt g (PStr "tok");
                  creation_request rt g (PStr "tok") "Docs"].
Proof.
  repeat split.
Qed.

(** A drive that answers every call with 500. *)
Lemma ensure_folder_failure_is_none_witness :
  let rt := Demo.always 500 "boom" in
  let g := Demo.fresh_service in
  let r := _ensure_folder_exists rt (PStr "tok") "Docs" g (Demo.world_at 0) in
  r = (Ok PNone, g,
       mkWorld 2 [listing_request rt g (PStr "tok");
                  creation_request rt g (PStr "tok") "Docs"]) /\
  fst (fst r) = Ok PNone.
Proof.
  intros rt g r. split; [reflexivity|].
  destruct (ensure_folder_failure_is_none rt (PStr "tok") "Docs" g (Demo.world_at 0)
              (fst (fst r)) (snd (fst r)) (snd r) eq_refl) as (_ & _ & Bad).
  exact (Bad 1 _ 2 _ eq_refl eq_refl eq_refl eq_refl).
Defined.

(* ===================================================================== *)
(** ** The upload orchestrator *)
(* ===================================================================== *)

Section UploadOrchestrator.

Variable rt : Runtime.

(** C6, as amended.  With the flag [onedrive_upload_enabled] set to
    [False], [upload_to_onedrive] sends no request and changes neither the
    service object nor the world, whatever the content, the file name and
    the user; when moreover [Config.is_onedrive_enabled()] holds, it
    returns success with the informational note. *)
Theorem disabled_upload_is_silent file_content file_name user_id g w :
  onedrive_upload_enabled g = PBool false ->
  snd (upload_to_onedrive rt file_content file_name user_id g w) = w /\
  snd (fst (upload_to_onedrive rt file_content file_name user_id g w)) = g /\
  (forall configured,
      is_onedrive_enabled rt = Ok configured ->
      truthy configured = true ->
      upload_to_onedrive rt file_content file_name user_id g w =
      (Ok (PDict [("success", PBool true);
                  ("info", PStr "Upload OneDrive désactivé")]), g, w)).
Proof.
  intros Flag.
  unfold upload_to_onedrive, is_configured, bind, lift, self, ret.
  destruct (is_onedrive_enabled rt) as [c|e]; [|repeat split; intros; discriminate].
  destruct (truthy c) eqn:T; simpl.
  - rewrite Flag. simpl. repeat split.
  - repeat split. intros c' E T'. inversion E; subst. congruence.
Qed.

End UploadOrchestrator.

(** C6, as stated, fails: the flag is [False] and
    [Config.is_onedrive_enabled()] answers [False]; the result is a
    failure, not a success with a note. *)
Lemma disabled_and_not_configured_fails :
  onedrive_upload_enabled Demo.disabled_service = PBool false /\
  upload_to_onedrive Demo.not_configured (PStr "bytes") "doc-es.docx" "u1"
    Demo.disabled_service (Demo.world_at 0) =
  (Ok (PDict [("success", PBool false); ("error", PStr "OneDrive non configuré")]),
   Demo.disabled_service, Demo.world_at 0).
Proof.
  split; reflexivity.
Qed.

Lemma disabled_upload_is_silent_witness :
  onedrive_upload_enabled Demo.disabled_service = PBool false /\
  upload_to_onedrive (Demo.provider 3600) (PStr "bytes") "doc-es.docx" "u1"
    Demo.disabled_service (Demo.world_at 0) =
  (Ok (PDict [("success", PBool true); ("info", PStr "Upload OneDrive désactivé")]),
   Demo.disabled_service, Demo.world_at 0).
Proof.
  split; [reflexivity|].
  exact (proj2 (proj2 (disabled_upload_is_silent (Demo.provider 3600) (PStr "bytes")
                         "doc-es.docx" "u1" Demo.disabled_service (Demo.world_at 0)
                         eq_refl))
           (PBool true) eq_refl eq_refl).
Defined.

(* ===================================================================== *)
(** ** Names: the unique file name and the output blob name *)
(* ===================================================================== *)

Section Names.

Lemma is_digit_digit n : is_digit (digit n) = true.
Proof.
  unfold digit.
  pose proof (Z.mod_pos_bound n 10 ltac:(lia)) as B.
  assert (C : n mod 10 = 0 \/ n mod 10 = 1 \/ n mod 10 = 2 \/ n mod 10 = 3 \/
              n mod 10 = 4 \/ n mod 10 = 5 \/ n mod 10 = 6 \/ n mod 10 = 7 \/
              n mod 10 = 8 \/ n mod 10 = 9) by lia.
  repeat (destruct C as [C|C]; [rewrite C; reflexivity|]).
  rewrite C; reflexivity.
Qed.

Lemma all_digits_pad2 n : all_digits (pad2 n) = true.
Proof.
  unfold pad2. simpl. rewrite !is_digit_digit. reflexivity.
Qed.

Lemma all_digits_app a b :
  all_digits a = true -> all_digits b = true -> all_digits (a ++ b) = true.
Proof.
  induction a as [|c a IH]; simpl; intros Ha Hb; [exact Hb|].
  apply andb_prop in Ha. destruct Ha as [Hc Ha].
  rewrite Hc, (IH Ha Hb). reflexivity.
Qed.

Lemma all_digits_pad4 n : all_digits (pad4 n) = true.
Proof.
  unfold pad4. simpl. rewrite !is_digit_digit. reflexivity.
Qed.

Lemma digit_value_digit n : digit_value (digit n) = n mod 10.
Proof.
  unfold digit, digit_value.
  pose proof (Z.mod_pos_bound n 10 ltac:(lia)) as B.
  assert (C : n mod 10 = 0 \/ n mod 10 = 1 \/ n mod 10 = 2 \/ n mod 10 = 3 \/
              n mod 10 = 4 \/ n mod 10 = 5 \/ n mod 10 = 6 \/ n mod 10 = 7 \/
              n mod 10 = 8 \/ n mod 10 = 9) by lia.
  repeat (destruct C as [C|C]; [rewrite C; reflexivity|]).
  rewrite C; reflexivity.
Qed.

Lemma decimal_pad2 acc n :
  0 <= n <= 99 -> decimal_from acc (pad2 n) = 100 * acc + n.
Proof.
  intros B. unfold pad2. cbn [decimal_from]. rewrite !digit_value_digit.
  Z.div_mod_to_equations. lia.
Qed.

Lemma decimal_pad4 acc n :
  0 <= n <= 9999 -> decimal_from acc (pad4 n) = 10000 * acc + n.
Proof.
  intros B. unfold pad4, pad2. cbn [decimal_from]. rewrite !digit_value_digit.
  Z.div_mod_to_equations. lia.
Qed.

Lemma decimal_from_app acc a b :
  decimal_from acc (a ++ b) = decimal_from (decimal_from acc a) b.
Proof.
  revert acc. induction a as [|c a IH]; intros acc; simpl; [reflexivity|].
  apply IH.
Qed.

(** The calendar date and the time of day as [strftime] prints them. *)
Lemma date_digits d :
  datetime_ok d ->
  let date := pad4 (year d) ++ pad2 (month d) ++ pad2 (day d) in
  String.length date = 8%nat /\ all_digits date = true /\
  decimal_from 0 date = year d * 10000 + month d * 100 + day d.
Proof.
  intros (Hy & Hm & Hd & _). repeat split.
  - simpl. rewrite !is_digit_digit. reflexivity.
  - rewrite !decimal_from_app, decimal_pad4, !decimal_pad2; lia.
Qed.

Lemma time_digits d :
  datetime_ok d ->
  let time := pad2 (hour d) ++ pad2 (minute d) ++ pad2 (second d) in
  String.length time = 6%nat /\ all_digits time = true /\
  decimal_from 0 time = hour d * 10000 + minute d * 100 + second d.
Proof.
  intros (_ & _ & _ & HH & HM & HS & _). repeat split.
  - simpl. rewrite !is_digit_digit. reflexivity.
  - rewrite !decimal_from_app, !decimal_pad2; lia.
Qed.

Lemma same_second_same_stamp d d' :
  same_second d d' -> strftime_Ymd_HMS d' = strftime_Ymd_HMS d.
Proof.
  intros (Y & Mo & D & H & Mi & S). unfold strftime_Ymd_HMS.
  rewrite Y, Mo, D, H, Mi, S. reflexivity.
Qed.

(** C4, as amended.  At any instant [d], the unique name of
    [report.pdf] for user [u1] is [report_u1_], eight digits that read as
    the date, an underscore, six digits that read as the time of day, and
    [.pdf]; an instant [d'] in the same wall-clock second gives the same
    name. *)
Theorem unique_name_of_report d d' :
  datetime_ok d ->
  same_second d d' ->
  (exists date time,
      unique_filename_at d "report.pdf" "u1" =
        Ok ("report_u1_" ++ date ++ "_" ++ time ++ ".pdf") /\
      String.length date = 8%nat /\ all_digits date = true /\
      decimal_from 0 date = year d * 10000 + month d * 100 + day d /\
      String.length time = 6%nat /\ all_digits time = true /\
      decimal_from 0 time = hour d * 10000 + minute d * 100 + second d) /\
  unique_filename_at d' "report.pdf" "u1" = unique_filename_at d "report.pdf" "u1".
Proof.
  intros Hok Hsame. split.
  - exists (pad4 (year d) ++ pad2 (month d) ++ pad2 (day d)),
           (pad2 (hour d) ++ pad2 (minute d) ++ pad2 (second d)).
    destruct (date_digits d Hok) as (L1 & A1 & V1).
    destruct (time_digits d Hok) as (L2 & A2 & V2).
    repeat split; try assumption.
  - unfold unique_filename_at. cbn -[strftime_Ymd_HMS].
    rewrite (same_second_same_stamp _ _ Hsame). reflexivity.
Qed.

Lemma split_last_dot_none s :
  split_last_dot s = None -> has_dot s = false.
Proof.
  induction s as [|c s IH]; simpl; [reflexivity|].
  destruct (split_last_dot s) as [[a b]|]; [discriminate|].
  destruct (Ascii.eqb c "."); [discriminate|]. intros _. simpl. auto.
Qed.

(** [split_last_dot] cuts at a dot, and no dot is left in the second
    part. *)
Lemma split_last_dot_spec s a b :
  split_last_dot s = Some (a, b) ->
  s = a ++ "." ++ b /\ has_dot b = false.
Proof.
  revert a b. induction s as [|c s IH]; simpl; intros a b H; [discriminate|].
  destruct (split_last_dot s) as [[a' b']|] eqn:E.
  - inversion H; subst. destruct (IH _ _ eq_refl) as (-> & Hb).
    split; [reflexivity | exact Hb].
  - destruct (Ascii.eqb c ".") eqn:C; [|discriminate].
    inversion H; subst. apply Ascii.eqb_eq in C. subst c.
    split; [reflexivity | exact (split_last_dot_none _ E)].
Qed.

Lemma split_last_dot_some s :
  has_dot s = true -> exists a b, split_last_dot s = Some (a, b).
Proof.
  induction s as [|c s IH]; simpl; [discriminate|].
  intros H. destruct (split_last_dot s) as [[a b]|]; [eauto|].
  destruct (Ascii.eqb c "."); [eauto|].
  simpl in H. destruct (IH H) as (a & b & E). discriminate E.
Qed.

Lemma split_last_dot_no_dot s :
  has_dot s = false -> split_last_dot s = None.
Proof.
  intros H. destruct (split_last_dot s) as [[a b]|] eqn:E; [|reflexivity].
  destruct (split_last_dot_spec _ _ _ E) as (-> & _).
  exfalso. clear E. induction a as [|c a IH]; simpl in H.
  - discriminate.
  - apply orb_false_iff in H. destruct H as [_ H]. exact (IH H).
Qed.

End Names.

(** C4, as stated, fails: on 2 January 2024 at 03:04:05 the name is
    [report_u1_20240102_030405.pdf]; what stands between [report_u1_] and
    [.pdf] has fifteen characters, one of them an underscore, so no run of
    fourteen digits fits. *)
Lemma unique_name_is_not_fourteen_digits :
  unique_filename_at Demo.instant "report.pdf" "u1" =
    Ok "report_u1_20240102_030405.pdf" /\
  ~ (exists digits,
        String.length digits = 14%nat /\ all_digits digits = true /\
        unique_filename_at Demo.instant "report.pdf" "u1" =
          Ok ("report_u1_" ++ digits ++ ".pdf")).
Proof.
  split; [reflexivity|].
  intros (ds & L & A & E).
  do 14 (destruct ds as [|? ds]; [discriminate L|]).
  destruct ds; [|discriminate L].
  inversion E.
Qed.

Lemma unique_name_of_report_witness :
  datetime_ok Demo.instant /\
  same_second Demo.instant (mkDatetime 2024 1 2 3 4 5 999999) /\
  unique_filename_at (mkDatetime 2024 1 2 3 4 5 999999) "report.pdf" "u1" =
  unique_filename_at Demo.instant "report.pdf" "u1".
Proof.
  assert (Hok : datetime_ok Demo.instant) by (unfold datetime_ok; simpl; lia).
  assert (Hs : same_second Demo.instant (mkDatetime 2024 1 2 3 4 5 999999))
    by (repeat split).
  split; [exact Hok|]. split; [exact Hs|].
  exact (proj2 (unique_name_of_report Demo.instant _ Hok Hs)).
Defined.

(* ===================================================================== *)
(** ** The handlers *)
(* ===================================================================== *)

Section HandlerProperties.

Variable rt : Runtime.
Variable sv : Services.
Variable cfg : Config.

(** C5.  For a blob name with a dot, the output blob name is the part
    before the last dot, a hyphen, the target language, a dot and the part
    after the last dot; [doc.docx] into [es] gives [doc-es.docx]; and it is
    under that name that [get_translation_result] asks the blob store for
    the translated file. *)
Theorem output_blob_name_derivation blob_name target_language :
  has_dot blob_name = true ->
  exists base ext,
    blob_name = base ++ "." ++ ext /\ has_dot ext = false /\
    output_blob_name blob_name target_language =
      Ok (base ++ "-" ++ target_language ++ "." ++ ext) /\
    output_blob_name "doc.docx" "es" = Ok "doc-es.docx" /\
    (forall req g w,
        lookup "blob_name" (params req) = Some blob_name ->
        lookup "target_language" (params req) = Some target_language ->
        String.eqb target_language "" = false ->
        lookup "user_id" (params req) = None ->
        get_translation_result rt sv req g w =
        match get_translated_file_url sv
                (base ++ "-" ++ target_language ++ "." ++ ext) with
        | Ok download_url =>
            if truthy download_url
            then (Ok (create_response (PDict [("download_url", download_url)]) 200), g, w)
            else (Ok (create_error_response (PStr "Fichier traduit introuvable") 404), g, w)
        | Raise e => (Ok (get_translation_result_except e), g, w)
        end).
Proof.
  intros Hdot.
  destruct (split_last_dot_some _ Hdot) as (base & ext & E).
  destruct (split_last_dot_spec _ _ _ E) as (Hcat & Hext).
  assert (Hout : output_blob_name blob_name target_language =
                 Ok (base ++ "-" ++ target_language ++ "." ++ ext)).
  { unfold output_blob_name, rsplit_dot_1. rewrite E. reflexivity. }
  exists base, ext. repeat split; auto.
  intros req g w Hb Hl Hne Hu.
  assert (Hbne : String.eqb blob_name "" = false).
  { destruct blob_name; [discriminate Hdot | reflexivity]. }
  unfold get_translation_result. rewrite Hb, Hl, Hu. simpl.
  rewrite Hbne, Hne. simpl.
  unfold get_translation_result_try, try_except, bind, lift, ret.
  rewrite Hout.
  destruct (get_translated_file_url sv _) as [u|e]; [|reflexivity].
  destruct (truthy u); reflexivity.
Qed.

(** C10, as amended.  When [blob_name] and [target_language] are both
    given and [blob_name] has no dot, [get_translation_result] answers
    500: unpacking the split raises and the catch-all absorbs it. *)
Theorem result_without_extension_is_500 req blob_name target_language g w :
  lookup "blob_name" (params req) = Some blob_name ->
  String.eqb blob_name "" = false ->
  has_dot blob_name = false ->
  lookup "target_language" (params req) = Some target_language ->
  String.eqb target_language "" = false ->
  get_translation_result rt sv req g w =
  (Ok (create_error_response
         (PStr "Erreur interne: not enough values to unpack (expected 2, got 1)")
         500), g, w).
Proof.
  intros Hb Hbne Hdot Hl Hlne.
  unfold get_translation_result. rewrite Hb, Hl. simpl. rewrite Hbne, Hlne. simpl.
  unfold get_translation_result_try, try_except, bind, lift, ret.
  unfold output_blob_name, rsplit_dot_1.
  rewrite (split_last_dot_no_dot _ Hdot). reflexivity.
Qed.

End HandlerProperties.

Section Dispatch.

Variable rt : Runtime.
Variable sv : Services.
Variable cfg : Config.

(** A [try] closed by a clause that returns a response never raises. *)
Lemma try_except_total {A} (m : M A) (f : Exn -> A) g w :
  exists r g' w', try_except m (fun e => ret (f e)) g w = (Ok r, g', w').
Proof.
  unfold try_except, ret. destruct (m g w) as [[[a|e] g'] w']; eauto.
Qed.

Lemma try_except_raise {A} (m : M A) (f : Exn -> A) g w e g' w' :
  m g w = (Raise e, g', w') ->
  try_except m (fun e => ret (f e)) g w = (Ok (f e), g', w').
Proof.
  unfold try_except, ret. intros ->. reflexivity.
Qed.

(** No handler lets an exception out. *)
Lemma handle_total h req g w :
  exists r g' w', handle rt sv cfg h req g w = (Ok r, g', w').
Proof.
  destruct h; simpl.
  - apply try_except_total.
  - unfold check_translation_status.
    destruct (absent (lookup "translation_id" (route_params req))).
    + unfold ret; eauto.
    + apply try_except_total.
  - unfold get_translation_result.
    destruct (absent (lookup "blob_name" (params req))
              || absent (lookup "target_language" (params req))).
    + unfold ret; eauto.
    + apply try_except_total.
  - apply try_except_total.
  - apply try_except_total.
  - apply try_except_total.
Qed.

(** C8, as amended.  An exception that leaves the [try] block of a
    handler is turned by the handler's catch-all into a response whose
    message ends with the exception's message; the status of that response
    is 500 for every handler but [health_check], whose catch-all answers
    503.  No handler lets an exception propagate. *)
Theorem catch_all_converts h req block g w e g1 w1 :
  try_block rt sv cfg h req = Some block ->
  block g w = (Raise e, g1, w1) ->
  handle rt sv cfg h req g w = (Ok (except_clause h e), g1, w1) /\
  http_status (except_clause h e) =
    match h with HealthCheck => 503 | _ => 500 end /\
  (exists prefix, http_body (except_clause h e) = ErrorBody (PStr (prefix ++ exn_msg e))) /\
  (forall req' g' w', exists r g2 w2, handle rt sv cfg h req' g' w' = (Ok r, g2, w2)).
Proof.
  intros Hblock Hrun.
  assert (Hh : handle rt sv cfg h req g w = (Ok (except_clause h e), g1, w1)).
  { destruct h; simpl in *.
    - inversion Hblock; subst. apply try_except_raise. exact Hrun.
    - unfold check_translation_status.
      destruct (absent (lookup "translation_id" (route_params req)));
        [discriminate Hblock|].
      inversion Hblock; subst. apply try_except_raise. exact Hrun.
    - unfold get_translation_result.
      destruct (absent (lookup "blob_name" (params req))
                || absent (lookup "target_language" (params req)));
        [discriminate Hblock|].
      inversion Hblock; subst. apply try_except_raise. exact Hrun.
    - inversion Hblock; subst. apply try_except_raise. exact Hrun.
    - inversion Hblock; subst. apply try_except_raise. exact Hrun.
    - inversion Hblock; subst. apply try_except_raise. exact Hrun. }
  split; [exact Hh|]. split; [destruct h; reflexivity|].
  split; [destruct h; eexists; reflexivity|].
  intros. apply handle_total.
Qed.


End Dispatch.

(* --------------------------------------------------------------------- *)
(** *** The handlers on concrete requests *)

(** C8, as stated, fails: the environment lookup raises inside
    [health_check]; the catch-all answers 503, not 500. *)
Lemma health_check_catch_all_is_503 :
  let rt := Demo.provider 3600 in
  let req := Demo.result_request [] in
  health_check_try Demo.environment_down Demo.config Demo.fresh_service (Demo.world_at 0) =
    (Raise (mkExn "OSError" "environment unavailable"),
     Demo.fresh_service, Demo.world_at 0) /\
  handle rt Demo.environment_down Demo.config HealthCheck req
    Demo.fresh_service (Demo.world_at 0) =
    (Ok (mkHttpResponse 503
           (ErrorBody (PStr "Service unhealthy: environment unavailable"))),
     Demo.fresh_service, Demo.world_at 0) /\
  503 <> 500.
Proof.
  repeat split. discriminate.
Qed.

(** A [get_result] request for a blob name without extension. *)
Lemma catch_all_converts_witness :
  let rt := Demo.provider 3600 in
  let req := Demo.result_request [("blob_name", "archive"); ("target_language", "es")] in
  handle rt Demo.services Demo.config GetTranslationResult req
    Demo.fresh_service (Demo.world_at 0) =
  (Ok (mkHttpResponse 500
         (ErrorBody (PStr "Erreur interne: not enough values to unpack (expected 2, got 1)"))),
   Demo.fresh_service, Demo.world_at 0).
Proof.
  intros rt req.
  exact (proj1 (catch_all_converts rt Demo.services Demo.config
                  GetTranslationResult req _ Demo.fresh_service (Demo.world_at 0)
                  _ _ _ eq_refl eq_refl)).
Defined.



(** C10, as stated, fails: [blob_name] is given without a dot, and
    [target_language] is missing; the answer is 400. *)
Lemma result_without_language_is_400 :
  let req := Demo.result_request [("blob_name", "archive")] in
  lookup "blob_name" (params req) = Some "archive" /\
  has_dot "archive" = false /\
  get_translation_result (Demo.provider 3600) Demo.services req
    Demo.fresh_service (Demo.world_at 0) =
  (Ok (mkHttpResponse 400
         (ErrorBody (PStr "Paramètres manquants : blob_name, target_language"))),
   Demo.fresh_service, Demo.world_at 0).
Proof.
  repeat split.
Qed.

Lemma result_without_extension_is_500_witness :
  let req := Demo.result_request [("blob_name", "archive"); ("target_language", "es")] in
  get_translation_result (Demo.provider 3600) Demo.services req
    Demo.fresh_service (Demo.world_at 0) =
  (Ok (mkHttpResponse 500
         (ErrorBody (PStr "Erreur interne: not enough values to unpack (expected 2, got 1)"))),
   Demo.fresh_service, Demo.world_at 0).
Proof.
  intros req.
  exact (result_without_extension_is_500 (Demo.provider 3600) Demo.services req
           "archive" "es" Demo.fresh_service (Demo.world_at 0)
           eq_refl eq_refl eq_refl eq_refl eq_refl).
Defined.

Lemma output_blob_name_derivation_witness :
  has_dot "doc.docx" = true /\
  output_blob_name "doc.docx" "es" = Ok "doc-es.docx".
Proof.
  split; [reflexivity|].
  destruct (output_blob_name_derivation (Demo.provider 3600) Demo.services
              "doc.docx" "es" eq_refl) as (base & ext & _ & _ & _ & Hdoc & _).
  exact Hdoc.
Defined.

(* ===================================================================== *)
(** ** More on the credential cache *)
(* ===================================================================== *)

Section CacheFootprint.

Variable rt : Runtime.

Lemma same_settings_refl g : same_settings g g.
Proof. repeat split. Qed.

Lemma same_settings_trans g1 g2 g3 :
  same_settings g1 g2 -> same_settings g2 g3 -> same_settings g1 g3.
Proof.
  unfold same_settings. intros (a1 & a2 & a3 & a4 & a5 & a6 & a7)
                               (b1 & b2 & b3 & b4 & b5 & b6 & b7).
  repeat split; congruence.
Qed.

(** The token call: no exception, the settings kept, at most one more
    request. *)
Lemma token_call_trace g w r g' w' :
  _get_access_token rt g w = (r, g', w') ->
  (exists v, r = Ok v) /\
  same_settings g g' /\
  (w' = w \/ exists t, w' = mkWorld t (sent w ++ [token_request g])).
Proof.
  destruct (cache_valid g (now w)) eqn:V.
  - rewrite (get_access_token_hit _ _ _ V). intros H; inversion H; subst.
    repeat split; eauto.
  - rewrite (get_access_token_miss _ _ _ V). unfold refreshed.
    destruct (transport rt (sent w) (now w) (token_request g)) as [t [resp|e]].
    2:{ intros H; inversion H; subst. repeat split; eauto. }
    destruct (status_code resp =? 200).
    2:{ intros H; inversion H; subst. repeat split; eauto. }
    destruct (json resp) as [td|e].
    2:{ intros H; inversion H; subst. repeat split; eauto. }
    destruct (get td "access_token") as [tok|e].
    2:{ intros H; inversion H; subst. repeat split; eauto. }
    destruct (get_default td "expires_in" (PInt 3600)) as [ei|e].
    2:{ intros H; inversion H; subst. repeat split; eauto. }
    destruct (add_seconds t ei) as [ea|e];
      intros H; inversion H; subst; repeat split; eauto.
Qed.

(** X2.  When the cache does not answer, the value returned is [None] or
    the [access_token] of the 200 answer just received: the token that
    was in the cache is not handed out again. *)
Theorem stale_token_is_not_returned g w v g' w' :
  cache_valid g (now w) = false ->
  _get_access_token rt g w = (Ok v, g', w') ->
  v = PNone \/
  exists t response token_data,
    transport rt (sent w) (now w) (token_request g) = (t, Ok response) /\
    status_code response = 200 /\
    json response = Ok token_data /\
    get token_data "access_token" = Ok v.
Proof.
  intros V. rewrite (get_access_token_miss _ _ _ V). unfold refreshed.
  destruct (transport rt (sent w) (now w) (token_request g)) as [t [resp|e]].
  2:{ intros H; inversion H; subst. auto. }
  destruct (status_code resp =? 200) eqn:S.
  2:{ intros H; inversion H; subst. auto. }
  destruct (json resp) as [td|e] eqn:J.
  2:{ intros H; inversion H; subst. auto. }
  destruct (get td "access_token") as [tok|e] eqn:G.
  2:{ intros H; inversion H; subst. auto. }
  destruct (get_default td "expires_in" (PInt 3600)) as [ei|e].
  2:{ intros H; inversion H; subst. auto. }
  destruct (add_seconds t ei) as [ea|e]; intros H; inversion H; subst; auto.
  right. exists t, resp, td. apply Z.eqb_eq in S. auto.
Qed.

(** X3.  A token fetched with a numeric lifetime is served from the cache
    by every later call made before its expiry less 300 seconds: that call
    returns the same token and sends nothing.  The clock after the
    exchange and the expiry lie between 0 and [2 ^ 53], where the float
    addition of the code is exact. *)
Theorem fetched_token_is_reused g w t response token_data tok expires_in expires_at w2 :
  cache_valid g (now w) = false ->
  transport rt (sent w) (now w) (token_request g) = (t, Ok response) ->
  status_code response = 200 ->
  json response = Ok token_data ->
  get token_data "access_token" = Ok tok ->
  truthy tok = true ->
  get_default token_data "expires_in" (PInt 3600) = Ok expires_in ->
  add_seconds t expires_in = Ok expires_at ->
  0 <= t <= expires_at ->
  expires_at <= 2 ^ 53 ->
  expires_at <> 0 ->
  now w2 < expires_at - 300 ->
  exists g1,
    _get_access_token rt g w =
      (Ok tok, g1, mkWorld t (sent w ++ [token_request g])) /\
    _token_expires_at g1 = Some expires_at /\
    _get_access_token rt g1 w2 = (Ok tok, g1, w2).
Proof.
  intros V T S J G Tr E A _ _ Nz Lt.
  exists (set_token_expires_at (Some expires_at) (set_access_token tok g)).
  split; [|split; [reflexivity|]].
  - rewrite (get_access_token_miss _ _ _ V). unfold refreshed.
    rewrite T. apply Z.eqb_eq in S. rewrite S, J, G, E, A. reflexivity.
  - apply (get_access_token_hit rt). unfold cache_valid. simpl.
    rewrite Tr. simpl.
    apply Z.eqb_neq in Nz. rewrite Nz. simpl.
    apply Z.ltb_lt. exact Lt.
Qed.

(** X4.  A service object fresh from [__init__] holds no token: its first
    call goes to the token endpoint. *)
Theorem first_call_contacts_provider cfg w :
  exists r g' t,
    _get_access_token rt (GraphService_init rt cfg) w =
    (r, g', mkWorld t (sent w ++ [token_request (GraphService_init rt cfg)])).
Proof.
  rewrite get_access_token_miss by reflexivity. unfold refreshed.
  destruct (transport rt (sent w) (now w) _) as [t [resp|e]]; eauto.
  destruct (status_code resp =? 200); eauto.
  destruct (json resp) as [td|e]; eauto.
  destruct (get td "access_token") as [tok|e]; eauto.
  destruct (get_default td "expires_in" (PInt 3600)) as [ei|e]; eauto.
  destruct (add_seconds t ei) as [ea|e]; eauto.
Qed.

End CacheFootprint.

(* ===================================================================== *)
(** ** More on the folder resolver *)
(* ===================================================================== *)

Section FolderLookup.

Variable rt : Runtime.

(** One turn of the loop on a dict that is not the folder looked for. *)
Lemma find_folder_skip folder_name d rest :
  names_folder folder_name d = false ->
  find_folder folder_name (PDict d :: rest) = find_folder folder_name rest.
Proof.
  unfold names_folder. simpl.
  destruct (is_str _ folder_name); simpl; [|reflexivity].
  intros H. rewrite H. reflexivity.
Qed.

(** The loop stops at the first item that is the folder. *)
Lemma find_folder_stops_at_match folder_name before d after :
  Forall (fun item => exists d', item = PDict d' /\ names_folder folder_name d' = false)
         before ->
  names_folder folder_name d = true ->
  find_folder folder_name (before ++ PDict d :: after) = Ok (Some (field "id" d)).
Proof.
  intros Hbefore Hd. induction Hbefore as [|item before (d' & -> & Hd') _ IH].
  - unfold names_folder in Hd. apply andb_prop in Hd. destruct Hd as [Hn Hf].
    simpl. rewrite Hn, Hf. reflexivity.
  - simpl app. rewrite (find_folder_skip _ _ _ Hd'). exact IH.
Qed.

(** The loop finds nothing among dicts none of which is the folder. *)
Lemma find_folder_no_match folder_name items :
  Forall (fun item => exists d', item = PDict d' /\ names_folder folder_name d' = false)
         items ->
  find_folder folder_name items = Ok None.
Proof.
  intros H. induction H as [|item items (d' & -> & Hd') _ IH]; [reflexivity|].
  rewrite (find_folder_skip _ _ _ Hd'). exact IH.
Qed.

(** X5.  The loop returns the id of the first listed item that has the
    requested name and a [folder] facet: items before it that are dicts
    without both are passed over (a file of that name among them), and
    nothing after it is looked at, not even an item that is no dict.  Among
    dicts none of which is the folder it finds nothing. *)
Theorem find_folder_first_match folder_name before :
  Forall (fun item => exists d', item = PDict d' /\ names_folder folder_name d' = false)
         before ->
  find_folder folder_name before = Ok None /\
  (forall d after,
      names_folder folder_name d = true ->
      find_folder folder_name (before ++ PDict d :: after) = Ok (Some (field "id" d))).
Proof.
  intros Hbefore. split.
  - exact (find_folder_no_match _ _ Hbefore).
  - intros d after Hd. exact (find_folder_stops_at_match _ _ _ _ Hbefore Hd).
Qed.

Ltac run_resolver :=
  unfold _ensure_folder_exists, try_except, bind, self, ret, lift, requests_send.

Lemma listed_folder_run folder_name resp (g : GraphService) (w : World) :
  (match json resp with
   | Ok a =>
       match get_default a "value" (PList []) with
       | Ok a0 =>
           match iter a0 with
           | Ok a1 => (find_folder folder_name a1, g, w)
           | Raise e => (Raise e, g, w)
           end
       | Raise e => (Raise e, g, w)
       end
   | Raise e => (Raise e, g, w)
   end) = (listed_folder folder_name resp, g, w).
Proof.
  unfold listed_folder, and_then.
  destruct (json resp) as [b|e]; [|reflexivity].
  destruct (get_default b "value" (PList [])) as [v|e]; [|reflexivity].
  destruct (iter v); reflexivity.
Qed.

(** X6.  When the listing is answered 200 and lists the folder, the
    resolver returns its id after that single request: no creation request
    is sent. *)
Theorem existing_folder_needs_no_creation access_token folder_name g w t response
        body before d after :
  transport rt (sent w) (now w) (listing_request rt g access_token) = (t, Ok response) ->
  status_code response = 200 ->
  json response = Ok (PDict body) ->
  assoc "value" body = Some (PList (before ++ PDict d :: after)) ->
  Forall (fun item => exists d', item = PDict d' /\ names_folder folder_name d' = false)
         before ->
  names_folder folder_name d = true ->
  _ensure_folder_exists rt access_token folder_name g w =
  (Ok (field "id" d), g,
   mkWorld t (sent w ++ [listing_request rt g access_token])).
Proof.
  intros T S J V Hbefore Hd. run_resolver. rewrite T.
  apply Z.eqb_eq in S. rewrite S. rewrite listed_folder_run.
  unfold listed_folder. rewrite J. simpl. rewrite V. simpl.
  rewrite (find_folder_stops_at_match _ _ _ _ Hbefore Hd). reflexivity.
Qed.

(** X7.  An exception while listing (the transport raises, or the 200
    answer is not the JSON document the loop expects) ends the resolution
    with [None] after that single request: no creation request is sent. *)
Theorem listing_exception_stops_resolution access_token folder_name g w t out :
  transport rt (sent w) (now w) (listing_request rt g access_token) = (t, out) ->
  (exists e, out = Raise e) \/
  (exists response e, out = Ok response /\ status_code response = 200 /\
                      listed_folder folder_name response = Raise e) ->
  _ensure_folder_exists rt access_token folder_name g w =
  (Ok PNone, g, mkWorld t (sent w ++ [listing_request rt g access_token])).
Proof.
  intros T [(e & ->) | (resp & e & -> & S & L)]; run_resolver; rewrite T.
  - reflexivity.
  - apply Z.eqb_eq in S. rewrite S. rewrite listed_folder_run, L. reflexivity.
Qed.

(** X8.  When the listing is answered 200 without the folder and the
    creation is answered 200 or 201 with a JSON object, the resolver
    returns the [id] of that object; it has sent the listing and then the
    creation, in that order. *)
Theorem missing_folder_is_created access_token folder_name g w
        t1 listing t2 creation info :
  transport rt (sent w) (now w) (listing_request rt g access_token) = (t1, Ok listing) ->
  status_code listing = 200 ->
  listed_folder folder_name listing = Ok None ->
  transport rt (sent w ++ [listing_request rt g access_token]) t1
    (creation_request rt g access_token folder_name) = (t2, Ok creation) ->
  is_200_or_201 (status_code creation) = true ->
  json creation = Ok (PDict info) ->
  _ensure_folder_exists rt access_token folder_name g w =
  (Ok (field "id" info), g,
   mkWorld t2 (sent w ++ [listing_request rt g access_token;
                          creation_request rt g access_token folder_name])).
Proof.
  intros T1 S1 L T2 S2 J. run_resolver. rewrite T1.
  apply Z.eqb_eq in S1. rewrite S1. rewrite listed_folder_run, L.
  unfold create_folder, bind, self, ret, lift, requests_send. simpl.
  rewrite T2, S2, J. simpl.
  rewrite <- app_assoc. reflexivity.
Qed.

(** The resolver sends the listing, possibly followed by the creation,
    and nothing else; it leaves the service object alone. *)
Lemma ensure_folder_footprint access_token folder_name g w r g' w' :
  _ensure_folder_exists rt access_token folder_name g w = (r, g', w') ->
  (exists v, r = Ok v) /\ g' = g /\
  ((exists t, w' = mkWorld t (sent w ++ [listing_request rt g access_token])) \/
   (exists t, w' = mkWorld t (sent w ++ [listing_request rt g access_token;
                                          creation_request rt g access_token folder_name]))).
Proof.
  run_resolver.
  destruct (transport rt (sent w) (now w) (listing_request rt g access_token))
    as [t1 [resp1|e1]].
  2:{ intros H; inversion H; subst. repeat split; eauto. }
  assert (Go :
    match create_folder rt access_token folder_name g
            (mkWorld t1 (sent w ++ [listing_request rt g access_token])) with
    | (Ok a, g0, w0) => (Ok a, g0, w0)
    | (Raise _, g0, w0) => (Ok PNone, g0, w0)
    end = (r, g', w') ->
    (exists v, r = Ok v) /\ g' = g /\
    ((exists t, w' = mkWorld t (sent w ++ [listing_request rt g access_token])) \/
     (exists t, w' = mkWorld t (sent w ++ [listing_request rt g access_token;
                                creation_request rt g access_token folder_name])))).
  { destruct (create_folder rt access_token folder_name g _) as [[r0 g0] w0] eqn:C.
    destruct (create_folder_run _ _ _ _ _ _ _ _ C) as (-> & t2 & out & _ & -> & _).
    simpl. rewrite <- app_assoc. simpl.
    intros H. destruct r0; inversion H; subst; repeat split; eauto. }
  destruct (status_code resp1 =? 200); [|exact Go].
  rewrite listed_folder_run.
  destruct (listed_folder folder_name resp1) as [[fid|]|e].
  - intros H; inversion H; subst. repeat split; eauto.
  - exact Go.
  - intros H; inversion H; subst. repeat split; eauto.
Qed.

End FolderLookup.

(* ===================================================================== *)
(** ** More on names *)
(* ===================================================================== *)

Section NameShapes.

Lemma append_assoc (a b c : string) : (a ++ b) ++ c = a ++ (b ++ c).
Proof.
  induction a as [|x a IH]; simpl; [reflexivity|]. rewrite IH. reflexivity.
Qed.

Lemma length_append (a b : string) :
  String.length (a ++ b) = (String.length a + String.length b)%nat.
Proof.
  induction a as [|x a IH]; simpl; [reflexivity|]. rewrite IH. reflexivity.
Qed.

Lemma append_cancel_l (a b c : string) : a ++ b = a ++ c -> b = c.
Proof.
  induction a as [|x a IH]; simpl; intros H; [exact H|].
  inversion H. auto.
Qed.

Lemma append_cancel_r (a b c : string) : a ++ c = b ++ c -> a = b.
Proof.
  revert b. induction a as [|x a IH]; intros b H.
  - destruct b as [|y b]; [reflexivity|].
    apply (f_equal String.length) in H. simpl in H.
    rewrite length_append in H. lia.
  - destruct b as [|y b].
    + apply (f_equal String.length) in H. simpl in H.
      rewrite length_append in H. lia.
    + simpl in H. inversion H; subst. f_equal. apply IH. assumption.
Qed.

(** A base and an extension without dot, joined by a dot, are cut back
    into the same two parts. *)
Lemma split_last_dot_of_join base ext :
  has_dot ext = false ->
  split_last_dot (base ++ "." ++ ext) = Some (base, ext).
Proof.
  intros Hext. induction base as [|c base IH]; simpl.
  - rewrite (split_last_dot_no_dot _ Hext). reflexivity.
  - simpl in IH. rewrite IH. reflexivity.
Qed.

(** X9.  Joining and cutting at the last dot are inverse: a base and an
    extension without dot, joined by a dot, are cut back into the same two
    parts; and what [split_last_dot] cuts joins back into the name. *)
Theorem split_last_dot_join base ext :
  has_dot ext = false ->
  split_last_dot (base ++ "." ++ ext) = Some (base, ext) /\
  (forall s a b, split_last_dot s = Some (a, b) -> s = a ++ "." ++ b).
Proof.
  intros Hext. split.
  - exact (split_last_dot_of_join base ext Hext).
  - intros s a b H. exact (proj1 (split_last_dot_spec _ _ _ H)).
Qed.

(** X10.  [_get_unique_filename] never raises.  A name with a dot gives
    base, user and timestamp joined by underscores, followed by the dot and
    the extension when the extension is not empty (a trailing dot is
    dropped); a name without dot gives name, user and timestamp. *)
Theorem unique_filename_shape d file_name user_id :
  (has_dot file_name = false /\
   unique_filename_at d file_name user_id =
     Ok (file_name ++ "_" ++ user_id ++ "_" ++ strftime_Ymd_HMS d)) \/
  (exists base ext,
      has_dot file_name = true /\ file_name = base ++ "." ++ ext /\
      has_dot ext = false /\
      unique_filename_at d file_name user_id =
        Ok (if String.eqb ext ""
            then base ++ "_" ++ user_id ++ "_" ++ strftime_Ymd_HMS d
            else (base ++ "_" ++ user_id ++ "_" ++ strftime_Ymd_HMS d) ++ "." ++ ext)).
Proof.
  destruct (has_dot file_name) eqn:Hdot.
  - right. destruct (split_last_dot_some _ Hdot) as (base & ext & E).
    destruct (split_last_dot_spec _ _ _ E) as (Hcat & Hext).
    exists base, ext. repeat split; auto.
    unfold unique_filename_at, rsplit_dot_1. rewrite Hdot, E. simpl.
    destruct (String.eqb ext ""); reflexivity.
  - left. split; [reflexivity|].
    unfold unique_filename_at. rewrite Hdot. reflexivity.
Qed.

Lemma has_dot_append a b : has_dot (a ++ b) = has_dot a || has_dot b.
Proof.
  induction a as [|c a IH]; simpl; [reflexivity|].
  rewrite IH. apply orb_assoc.
Qed.

(** X11.  The unique name keeps the extension: cut at its last dot, the
    unique name of a file with a non-empty extension gives that extension
    back, after the base, the user and the timestamp. *)
Theorem unique_name_keeps_extension d file_name user_id base ext :
  split_last_dot file_name = Some (base, ext) ->
  ext <> "" ->
  exists unique_name,
    unique_filename_at d file_name user_id = Ok unique_name /\
    split_last_dot unique_name =
      Some (base ++ "_" ++ user_id ++ "_" ++ strftime_Ymd_HMS d, ext).
Proof.
  intros E Hne.
  destruct (split_last_dot_spec _ _ _ E) as (Hcat & Hext).
  assert (Hdot : has_dot file_name = true).
  { rewrite Hcat, has_dot_append. simpl. apply orb_true_r. }
  apply String.eqb_neq in Hne.
  eexists. split.
  - unfold unique_filename_at, rsplit_dot_1. rewrite Hdot, E. simpl.
    rewrite Hne. reflexivity.
  - simpl. apply (split_last_dot_of_join _ _ Hext).
Qed.

(** X12.  The output blob keeps the extension of the source blob, and
    two target languages never give the same output blob for one source. *)
Theorem output_blob_names_differ blob_name base ext :
  split_last_dot blob_name = Some (base, ext) ->
  (forall language out,
      output_blob_name blob_name language = Ok out ->
      split_last_dot out = Some (base ++ "-" ++ language, ext)) /\
  (forall language language',
      output_blob_name blob_name language = output_blob_name blob_name language' ->
      language = language').
Proof.
  intros E. destruct (split_last_dot_spec _ _ _ E) as (_ & Hext).
  assert (Hout : forall language,
             output_blob_name blob_name language =
             Ok (base ++ "-" ++ language ++ "." ++ ext)).
  { intros language. unfold output_blob_name, rsplit_dot_1. rewrite E. reflexivity. }
  split.
  - intros language out H. rewrite Hout in H. inversion H; subst.
    transitivity (split_last_dot ((base ++ "-" ++ language) ++ "." ++ ext)).
    + f_equal. rewrite !append_assoc. reflexivity.
    + exact (split_last_dot_of_join _ _ Hext).
  - intros l l' H. rewrite !Hout in H. inversion H as [H'].
    apply append_cancel_l in H'. apply (append_cancel_l "-") in H'.
    exact (append_cancel_r _ _ ("." ++ ext) H').
Qed.

End NameShapes.

(* ===================================================================== *)
(** ** More on the upload orchestrator *)
(* ===================================================================== *)

Section UploadFlow.

Variable rt : Runtime.

Ltac run_upload :=
  unfold upload_to_onedrive, is_configured, try_except, bind, self, ret, lift.

(** The call after a failed exchange. *)
Lemma failed_refresh_run g w t out :
  cache_valid g (now w) = false ->
  transport rt (sent w) (now w) (token_request g) = (t, out) ->
  refresh_failed out ->
  _get_access_token rt g w = (Ok PNone, g, mkWorld t (sent w ++ [token_request g])).
Proof.
  intros V T F. rewrite (get_access_token_miss _ _ _ V). unfold refreshed.
  rewrite T. destruct out as [resp|e]; [|reflexivity].
  destruct (status_code resp =? 200) eqn:S; [|reflexivity].
  apply Z.eqb_eq in S.
  destruct F as [F | [[e F] | (td & e & J & F)]].
  - contradiction.
  - rewrite F. reflexivity.
  - rewrite J, F. reflexivity.
Qed.

(** X13.  When the upload is enabled and the token exchange fails, the
    upload answers with the token failure and the exchange is the only
    request sent: the drive is not contacted. *)
Theorem upload_stops_without_token file_content file_name user_id g w
        configured t out :
  is_onedrive_enabled rt = Ok configured ->
  truthy configured = true ->
  is_False (onedrive_upload_enabled g) = false ->
  cache_valid g (now w) = false ->
  transport rt (sent w) (now w) (token_request g) = (t, out) ->
  refresh_failed out ->
  upload_to_onedrive rt file_content file_name user_id g w =
  (Ok (failure "Impossible d'obtenir le token d'accès Microsoft Graph"),
   g, mkWorld t (sent w ++ [token_request g])).
Proof.
  intros Hc Ht Hf V T F. run_upload. rewrite Hc, Ht. simpl. rewrite Hf.
  rewrite (failed_refresh_run _ _ _ _ V T F). reflexivity.
Qed.

(** X14.  When the token is there and the folder cannot be resolved, the
    upload answers with the folder failure and stops: no file is sent. *)
Theorem upload_stops_without_folder file_content file_name user_id g w
        configured access_token g1 w1 folder_id w2 :
  is_onedrive_enabled rt = Ok configured ->
  truthy configured = true ->
  is_False (onedrive_upload_enabled g) = false ->
  _get_access_token rt g w = (Ok access_token, g1, w1) ->
  truthy access_token = true ->
  _ensure_folder_exists rt access_token (onedrive_folder g) g1 w1 =
    (Ok folder_id, g1, w2) ->
  truthy folder_id = false ->
  upload_to_onedrive rt file_content file_name user_id g w =
  (Ok (failure "Impossible de créer/accéder au dossier OneDrive"), g1, w2).
Proof.
  intros Hc Ht Hf Tok Ttok Fold Tfold. run_upload. rewrite Hc, Ht. simpl.
  rewrite Hf, Tok, Ttok. simpl. rewrite Fold, Tfold. reflexivity.
Qed.

(** X15.  With a token and a folder, the file is sent under its unique
    name in one PUT to the folder.  A 200 or 201 answer with a JSON object
    gives success with the [webUrl] and [id] of that object and the unique
    name; any other status gives a failure whose message carries the
    status and the body of the answer. *)
Theorem upload_sends_file_once file_content file_name user_id g w
        configured access_token g1 w1 folder_id w2 unique_name t3 response :
  is_onedrive_enabled rt = Ok configured ->
  truthy configured = true ->
  is_False (onedrive_upload_enabled g) = false ->
  _get_access_token rt g w = (Ok access_token, g1, w1) ->
  truthy access_token = true ->
  _ensure_folder_exists rt access_token (onedrive_folder g) g1 w1 =
    (Ok folder_id, g1, w2) ->
  truthy folder_id = true ->
  unique_filename_at (localtime rt (now w2)) file_name user_id = Ok unique_name ->
  transport rt (sent w2) (now w2)
    (upload_request rt g access_token folder_id unique_name file_content)
    = (t3, Ok response) ->
  let w3 := mkWorld t3 (sent w2 ++ [upload_request rt g access_token folder_id
                                      unique_name file_content]) in
  (forall info,
      is_200_or_201 (status_code response) = true ->
      json response = Ok (PDict info) ->
      upload_to_onedrive rt file_content file_name user_id g w =
      (Ok (PDict [("success", PBool true);
                  ("onedrive_url", field "webUrl" info);
                  ("file_id", field "id" info);
                  ("file_name", PStr unique_name)]), g1, w3)) /\
  (is_200_or_201 (status_code response) = false ->
   upload_to_onedrive rt file_content file_name user_id g w =
   (Ok (failure ("Erreur HTTP " ++ py_str rt (PInt (status_code response))
                 ++ ": " ++ text response)), g1, w3)).
Proof.
  intros Hc Ht Hf Tok Ttok Fold Tfold Name Put w3.
  assert (Run :
    upload_to_onedrive rt file_content file_name user_id g w =
    match
      (if is_200_or_201 (status_code response)
       then
         (file_info <- lift (json response) ;;
          onedrive_url <- lift (get file_info "webUrl") ;;
          file_id <- lift (get file_info "id") ;;
          ret (PDict [("success", PBool true);
                      ("onedrive_url", onedrive_url);
                      ("file_id", file_id);
                      ("file_name", PStr unique_name)]))
       else
         ret (failure ("Erreur HTTP " ++ py_str rt (PInt (status_code response))
                       ++ ": " ++ text response))) g1 w3
    with
    | (Ok a, g', w') => (Ok a, g', w')
    | (Raise e, g', w') => (Ok (failure ("Erreur interne: " ++ exn_msg e)), g', w')
    end).
  { run_upload. rewrite Hc, Ht. cbn [negb].
    rewrite Hf, Tok, Ttok. cbn [negb]. rewrite Fold, Tfold. cbn [negb].
    unfold _get_unique_filename, datetime_now, bind, lift, requests_send.
    rewrite Name.
    change (mkRequest "PUT" _ _ _ _ _)
      with (upload_request rt g access_token folder_id unique_name file_content).
    rewrite Put. reflexivity. }
  split.
  - intros info S J. rewrite Run, S. unfold bind, lift, ret. rewrite J. reflexivity.
  - intros S. rewrite Run, S. reflexivity.
Qed.

(** X16.  Once [Config.is_onedrive_enabled()] has answered, the upload
    never raises: the answer is a dict with a boolean [success].  An
    exception of [Config.is_onedrive_enabled()] itself is not caught. *)
Theorem upload_always_answers file_content file_name user_id g w :
  (forall configured,
      is_onedrive_enabled rt = Ok configured ->
      exists answer success g' w',
        upload_to_onedrive rt file_content file_name user_id g w
          = (Ok (PDict answer), g', w') /\
        assoc "success" answer = Some (PBool success)) /\
  (forall e,
      is_onedrive_enabled rt = Raise e ->
      upload_to_onedrive rt file_content file_name user_id g w = (Raise e, g, w)).
Proof.
  split.
  - intros c Hc. run_upload. rewrite Hc.
    destruct (truthy c); simpl; [|repeat eexists].
    destruct (is_False (onedrive_upload_enabled g)); [repeat eexists|].
    destruct (_get_access_token rt g w) as [[[tok|e] g1] w1]; [|repeat eexists].
    destruct (truthy tok); simpl; [|repeat eexists].
    destruct (_ensure_folder_exists rt tok (onedrive_folder g) g1 w1)
      as [[[fid|e] g2] w2]; [|repeat eexists].
    destruct (truthy fid); simpl; [|repeat eexists].
    unfold _get_unique_filename, datetime_now, bind, lift, requests_send.
    destruct (unique_filename_at (localtime rt (now w2)) file_name user_id)
      as [uname|e]; [|repeat eexists].
    destruct (transport rt (sent w2) (now w2) _) as [t3 [resp|e]];
      [|repeat eexists].
    destruct (is_200_or_201 (status_code resp)); [|repeat eexists].
    destruct (json resp) as [info|e]; [|repeat eexists].
    destruct (get info "webUrl") as [url|e]; [|repeat eexists].
    destruct (get info "id") as [fid'|e]; repeat eexists.
  - intros e He. run_upload. rewrite He. reflexivity.
Qed.

End UploadFlow.

(* ===================================================================== *)
(** ** Requests sent by one upload *)
(* ===================================================================== *)

Section UploadFootprint.

Variable rt : Runtime.

Lemma at_most_more_refl n w : at_most_more n w w.
Proof.
  exists []. split; [symmetry; apply app_nil_r | simpl; lia].
Qed.

Lemma at_most_more_one t w r : at_most_more 1 w (mkWorld t (sent w ++ [r])).
Proof.
  exists [r]. split; [reflexivity | simpl; lia].
Qed.

Lemma at_most_more_trans n m w1 w2 w3 :
  at_most_more n w1 w2 -> at_most_more m w2 w3 -> at_most_more (n + m) w1 w3.
Proof.
  intros (l1 & E1 & L1) (l2 & E2 & L2). exists (l1 ++ l2)%list.
  split; [rewrite E2, E1, app_assoc; reflexivity|].
  rewrite length_app. lia.
Qed.

Lemma at_most_more_le n m w w' :
  (n <= m)%nat -> at_most_more n w w' -> at_most_more m w w'.
Proof.
  intros Le (l & E & L). exists l. split; [exact E | lia].
Qed.

(** X1.  [_get_access_token] never raises, changes nothing of the
    service object but the two cache attributes, and sends at most one
    request, the client-credential exchange. *)
Theorem token_call_footprint g w r g' w' :
  _get_access_token rt g w = (r, g', w') ->
  (exists v, r = Ok v) /\
  same_settings g g' /\
  (w' = w \/ exists t, w' = mkWorld t (sent w ++ [token_request g])).
Proof.
  exact (token_call_trace rt g w r g' w').
Qed.

Lemma token_call_more g w r g' w' :
  _get_access_token rt g w = (r, g', w') ->
  same_settings g g' /\ at_most_more 1 w w'.
Proof.
  intros H. destruct (token_call_trace _ _ _ _ _ _ H) as (_ & S & [-> | (t & ->)]).
  - split; [exact S | apply at_most_more_refl].
  - split; [exact S | apply at_most_more_one].
Qed.

Lemma ensure_folder_more access_token folder_name g w r g' w' :
  _ensure_folder_exists rt access_token folder_name g w = (r, g', w') ->
  g' = g /\ at_most_more 2 w w'.
Proof.
  intros H.
  destruct (ensure_folder_footprint _ _ _ _ _ _ _ _ H)
    as (_ & -> & [(t & ->) | (t & ->)]).
  - split; [reflexivity|]. eexists. split; [reflexivity | simpl; lia].
  - split; [reflexivity|]. eexists. split; [reflexivity | simpl; lia].
Qed.

(** X17.  One upload sends at most four requests (the token exchange,
    the listing, the folder creation, the PUT): nothing is retried.  It
    changes nothing of the service object but the token cache. *)
Theorem upload_sends_at_most_four file_content file_name user_id g w r g' w' :
  upload_to_onedrive rt file_content file_name user_id g w = (r, g', w') ->
  same_settings g g' /\ at_most_more 4 w w'.
Proof.
  unfold upload_to_onedrive, is_configured, try_except, bind, self, ret, lift.
  assert (Stay : forall x, (x, g, w) = (r, g', w') ->
                           same_settings g g' /\ at_most_more 4 w w').
  { intros x H; inversion H; subst.
    split; [apply same_settings_refl | apply at_most_more_refl]. }
  destruct (is_onedrive_enabled rt) as [c|e]; [|apply Stay].
  destruct (truthy c); cbn [negb]; [|apply Stay].
  destruct (is_False (onedrive_upload_enabled g)); [apply Stay|].
  destruct (_get_access_token rt g w) as [[r1 g1] w1] eqn:Tok.
  destruct (token_call_more _ _ _ _ _ Tok) as (S1 & M1).
  assert (Stop1 : forall x, (x, g1, w1) = (r, g', w') ->
                            same_settings g g' /\ at_most_more 4 w w').
  { intros x H; inversion H; subst. split; [exact S1|].
    exact (at_most_more_le 1 4 _ _ ltac:(lia) M1). }
  destruct r1 as [tok|e]; [|apply Stop1].
  destruct (truthy tok); cbn [negb]; [|apply Stop1].
  destruct (_ensure_folder_exists rt tok (onedrive_folder g) g1 w1)
    as [[r2 g2] w2] eqn:Fold.
  destruct (ensure_folder_more _ _ _ _ _ _ _ Fold) as (-> & M2).
  pose proof (at_most_more_trans _ _ _ _ _ M1 M2) as M12.
  assert (Stop2 : forall x, (x, g1, w2) = (r, g', w') ->
                            same_settings g g' /\ at_most_more 4 w w').
  { intros x H; inversion H; subst. split; [exact S1|].
    apply (at_most_more_le (1 + 2) 4); [simpl; lia | exact M12]. }
  destruct r2 as [fid|e]; [|apply Stop2].
  destruct (truthy fid); cbn [negb]; [|apply Stop2].
  unfold _get_unique_filename, datetime_now, bind, lift, requests_send.
  destruct (unique_filename_at (localtime rt (now w2)) file_name user_id)
    as [uname|e]; [|apply Stop2].
  destruct (transport rt (sent w2) (now w2) _) as [t3 out] eqn:Put.
  assert (Stop3 : forall x,
             (x, g1, mkWorld t3 (sent w2 ++ [upload_request rt g tok fid uname
                                               file_content]))
             = (r, g', w') ->
             same_settings g g' /\ at_most_more 4 w w').
  { intros x H; inversion H; subst. split; [exact S1|].
    exact (at_most_more_trans _ _ _ _ _ M12 (at_most_more_one _ _ _)). }
  destruct out as [resp|e]; [|apply Stop3].
  destruct (is_200_or_201 (status_code resp)); [|apply Stop3].
  destruct (json resp) as [info|e]; [|apply Stop3].
  destruct (get info "webUrl") as [u|e]; [|apply Stop3].
  destruct (get info "id") as [i|e]; apply Stop3.
Qed.

End UploadFootprint.

(* ===================================================================== *)
(** ** More on the handlers *)
(* ===================================================================== *)

Section HandlerEdges.

Variable rt : Runtime.
Variable sv : Services.
Variable cfg : Config.

Ltac run_start :=
  unfold start_translation, start_translation_try, try_except, bind, lift, ret.

(** X18.  [start_translation] answers 400 before any collaborator is
    consulted when the body is empty, when the body is not JSON, and when
    a required field is missing; the message names the first missing field
    in the order [blob_name], [target_language], [user_id]. *)
Theorem start_translation_validates req g w :
  (get_body req = "" ->
   start_translation rt sv req g w =
   (Ok (create_error_response (PStr "Corps de requête manquant") 400), g, w)) /\
  (forall e,
      String.eqb (get_body req) "" = false ->
      get_json req = Raise e ->
      is_ValueError e = true ->
      start_translation rt sv req g w =
      (Ok (create_error_response (PStr ("JSON invalide: " ++ exn_msg e)) 400), g, w)) /\
  (forall fields,
      String.eqb (get_body req) "" = false ->
      get_json req = Ok (PDict fields) ->
      let missing name :=
        start_translation rt sv req g w =
        (Ok (create_error_response (PStr ("Paramètre manquant: " ++ name)) 400), g, w) in
      (assoc "blob_name" fields = None -> missing "blob_name") /\
      (assoc "blob_name" fields <> None ->
       assoc "target_language" fields = None -> missing "target_language") /\
      (assoc "blob_name" fields <> None ->
       assoc "target_language" fields <> None ->
       assoc "user_id" fields = None -> missing "user_id")).
Proof.
  split; [|split].
  - intros E. run_start. rewrite E. reflexivity.
  - intros e B J V. run_start. rewrite B, J, V. reflexivity.
  - intros fields B J missing. unfold missing. run_start. rewrite B, J. simpl.
    repeat split.
    + intros ->. reflexivity.
    + intros Hb ->. destruct (assoc "blob_name" fields); [reflexivity | contradiction].
    + intros Hb Hl ->.
      destruct (assoc "blob_name" fields); [|contradiction].
      destruct (assoc "target_language" fields); [reflexivity | contradiction].
Qed.

Lemma subscript_needs_dict data k :
  (forall fields, data <> PDict fields) -> exists e, subscript data k = Raise e.
Proof.
  intros H. destruct data; simpl; eauto. exfalso. exact (H _ eq_refl).
Qed.

(** X19.  A JSON body that is not an object never reaches the blob
    store or the translation engine: the answer is 400 or 500. *)
Theorem start_translation_needs_object req data g w :
  String.eqb (get_body req) "" = false ->
  get_json req = Ok data ->
  (forall fields, data <> PDict fields) ->
  exists body,
    start_translation rt sv req g w = (Ok (mkHttpResponse 400 body), g, w) \/
    start_translation rt sv req g w = (Ok (mkHttpResponse 500 body), g, w).
Proof.
  intros B J H. run_start. rewrite B, J.
  destruct (first_missing ["blob_name"; "target_language"; "user_id"] data)
    as [[f|]|e].
  - eexists. left. reflexivity.
  - destruct (subscript_needs_dict data "blob_name" H) as (e & ->).
    eexists. right. reflexivity.
  - eexists. right. reflexivity.
Qed.

(** X20.  With a complete body, an exception of the blob check is
    answered 500 (not 404), and so is an exception of the translation
    engine once the blob is found and its URLs are built; both answers
    carry the exception's message. *)
Theorem start_translation_downstream_failure req fields blob_name target_language
        user_id g w e :
  String.eqb (get_body req) "" = false ->
  get_json req = Ok (PDict fields) ->
  assoc "blob_name" fields = Some blob_name ->
  assoc "target_language" fields = Some target_language ->
  assoc "user_id" fields = Some user_id ->
  BlobService_new sv = Ok tt ->
  let failed :=
    start_translation rt sv req g w =
    (Ok (create_error_response
           (PStr ("Erreur lors de la traduction: " ++ exn_msg e)) 500), g, w) in
  (check_blob_exists sv blob_name = Raise e -> failed) /\
  (forall found blob_urls source_url target_url,
      check_blob_exists sv blob_name = Ok found ->
      truthy found = true ->
      prepare_translation_urls sv blob_name target_language = Ok blob_urls ->
      subscript blob_urls "source_url" = Ok source_url ->
      subscript blob_urls "target_url" = Ok target_url ->
      TranslationService_new sv = Ok tt ->
      translation_service_start sv source_url target_url target_language = Raise e ->
      failed).
Proof.
  intros B J Hb Hl Hu Hnew failed. unfold failed. split.
  - intros Hc. run_start. rewrite B, J. simpl.
    rewrite !Hb, !Hl, !Hu. simpl. rewrite ?Hb, ?Hl, ?Hu, Hnew, Hc. reflexivity.
  - intros found urls src tgt Hc Hf Hp Hs Ht Hn Hstart. run_start.
    rewrite B, J. simpl. rewrite !Hb, !Hl, !Hu. simpl.
    rewrite ?Hb, ?Hl, ?Hu, Hnew, Hc, Hf. simpl. rewrite Hp, Hs, Ht, Hn, Hstart.
    reflexivity.
Qed.

(** X21.  [check_translation_status] answers 400 without consulting the
    status handler when the route gives no identifier; otherwise 200 with
    the [data] of a successful result, 404 with the [message] of an
    unsuccessful one, and 500 when the status handler raises. *)
Theorem check_status_answers req g w :
  (absent (lookup "translation_id" (route_params req)) = true ->
   check_translation_status sv req g w =
   (Ok (create_error_response (PStr "ID de traduction manquant") 400), g, w)) /\
  (forall translation_id,
      lookup "translation_id" (route_params req) = Some translation_id ->
      String.eqb translation_id "" = false ->
      (forall result success payload,
          check_status sv translation_id = Ok (PDict result) ->
          assoc "success" result = Some success -> truthy success = true ->
          assoc "data" result = Some payload ->
          check_translation_status sv req g w =
          (Ok (create_response payload 200), g, w)) /\
      (forall result success message,
          check_status sv translation_id = Ok (PDict result) ->
          assoc "success" result = Some success -> truthy success = false ->
          assoc "message" result = Some message ->
          check_translation_status sv req g w =
          (Ok (create_error_response message 404), g, w)) /\
      (forall e,
          check_status sv translation_id = Raise e ->
          check_translation_status sv req g w =
          (Ok (create_error_response (PStr ("Erreur interne: " ++ exn_msg e)) 500),
           g, w))).
Proof.
  split.
  - intros A. unfold check_translation_status. rewrite A. reflexivity.
  - intros tid L Ne.
    assert (A : absent (lookup "translation_id" (route_params req)) = false)
      by (rewrite L; exact Ne).
    repeat split.
    + intros result s p C S T D. unfold check_translation_status.
      rewrite A, L. simpl.
      unfold check_translation_status_try, try_except, bind, lift, ret.
      rewrite C. simpl. rewrite S, T, D. reflexivity.
    + intros result s m C S T D. unfold check_translation_status.
      rewrite A, L. simpl.
      unfold check_translation_status_try, try_except, bind, lift, ret.
      rewrite C. simpl. rewrite S, T, D. reflexivity.
    + intros e C. unfold check_translation_status.
      rewrite A, L. simpl.
      unfold check_translation_status_try, try_except, bind, lift, ret.
      rewrite C. reflexivity.
Qed.

Lemma get_result_enters_try req blob_name target_language g w :
  lookup "blob_name" (params req) = Some blob_name ->
  String.eqb blob_name "" = false ->
  lookup "target_language" (params req) = Some target_language ->
  String.eqb target_language "" = false ->
  get_translation_result rt sv req g w =
  try_except
    (get_translation_result_try rt sv blob_name target_language
       (lookup "user_id" (params req)))
    (fun e => ret (get_translation_result_except e)) g w.
Proof.
  intros Hb Hbne Hl Hlne. unfold get_translation_result.
  rewrite Hb, Hl. simpl. rewrite Hbne, Hlne. reflexivity.
Qed.

(** X22.  When the blob store has no URL for the output blob,
    [get_translation_result] answers 404 and stops there: with or without
    a [user_id], nothing is downloaded and the drive is not contacted. *)
Theorem result_absent_is_404 req blob_name target_language out_name url g w :
  lookup "blob_name" (params req) = Some blob_name ->
  String.eqb blob_name "" = false ->
  lookup "target_language" (params req) = Some target_language ->
  String.eqb target_language "" = false ->
  output_blob_name blob_name target_language = Ok out_name ->
  get_translated_file_url sv out_name = Ok url ->
  truthy url = false ->
  get_translation_result rt sv req g w =
  (Ok (create_error_response (PStr "Fichier traduit introuvable") 404), g, w).
Proof.
  intros Hb Hbne Hl Hlne Ho Hu Tu.
  rewrite (get_result_enters_try _ _ _ _ _ Hb Hbne Hl Hlne).
  unfold get_translation_result_try, try_except, bind, lift, ret.
  rewrite Ho, Hu, Tu. reflexivity.
Qed.

(** The upload answers with a dict once the configuration check has
    answered. *)
Lemma upload_answers file_content file_name user_id g w configured :
  is_onedrive_enabled rt = Ok configured ->
  exists answer g' w',
    upload_to_onedrive rt file_content file_name user_id g w
      = (Ok (PDict answer), g', w').
Proof.
  intros Hc.
  unfold upload_to_onedrive, is_configured, try_except, bind, self, ret, lift.
  rewrite Hc.
  destruct (truthy configured); simpl; [|repeat eexists].
  destruct (is_False (onedrive_upload_enabled g)); [repeat eexists|].
  destruct (_get_access_token rt g w) as [[[tok|e] g1] w1]; [|repeat eexists].
  destruct (truthy tok); simpl; [|repeat eexists].
  destruct (_ensure_folder_exists rt tok (onedrive_folder g) g1 w1)
    as [[[fid|e] g2] w2]; [|repeat eexists].
  destruct (truthy fid); simpl; [|repeat eexists].
  unfold _get_unique_filename, datetime_now, bind, lift, requests_send.
  destruct (unique_filename_at (localtime rt (now w2)) file_name user_id)
    as [uname|e]; [|repeat eexists].
  destruct (transport rt (sent w2) (now w2) _) as [t3 [resp|e]];
    [|repeat eexists].
  destruct (is_200_or_201 (status_code resp)); [|repeat eexists].
  destruct (json resp) as [info|e]; [|repeat eexists].
  destruct (get info "webUrl") as [u|e]; [|repeat eexists].
  destruct (get info "id") as [fid'|e]; repeat eexists.
Qed.

(** X23.  With a [user_id], once the translated file has a URL and is
    downloaded, [get_translation_result] answers 200 with the download URL
    whatever becomes of the upload: the upload's own answer, success or
    failure, travels in [onedrive_url].  Only an exception of
    [Config.is_onedrive_enabled()] turns the answer into a 500. *)
Theorem result_survives_upload_failure req blob_name target_language user_id
        out_name url file_content g w :
  lookup "blob_name" (params req) = Some blob_name ->
  String.eqb blob_name "" = false ->
  lookup "target_language" (params req) = Some target_language ->
  String.eqb target_language "" = false ->
  lookup "user_id" (params req) = Some user_id ->
  String.eqb user_id "" = false ->
  output_blob_name blob_name target_language = Ok out_name ->
  get_translated_file_url sv out_name = Ok url ->
  truthy url = true ->
  download_translated_file sv out_name = Ok file_content ->
  (forall configured,
      is_onedrive_enabled rt = Ok configured ->
      exists answer g' w',
        upload_to_onedrive rt file_content out_name user_id g w
          = (Ok (PDict answer), g', w') /\
        get_translation_result rt sv req g w =
        (Ok (create_response (PDict [("download_url", url);
                                     ("onedrive_url", PDict answer)]) 200),
         g', w')) /\
  (forall e,
      is_onedrive_enabled rt = Raise e ->
      get_translation_result rt sv req g w =
      (Ok (create_error_response (PStr ("Erreur interne: " ++ exn_msg e)) 500),
       g, w)).
Proof.
  intros Hb Hbne Hl Hlne Hu Hune Ho Hurl Turl Hd.
  rewrite (get_result_enters_try _ _ _ _ _ Hb Hbne Hl Hlne). split.
  - intros c Hc.
    destruct (upload_answers file_content out_name user_id g w c Hc)
      as (answer & g' & w' & Up).
    exists answer, g', w'. split; [exact Up|].
    unfold get_translation_result_try, try_except, bind, lift, ret.
    rewrite Ho, Hurl, Turl, Hu. simpl. rewrite Hune. simpl.
    rewrite Hd, Up. reflexivity.
  - intros e He.
    unfold get_translation_result_try, try_except, bind, lift, ret.
    rewrite Ho, Hurl, Turl, Hu. simpl. rewrite Hune. simpl. rewrite Hd.
    unfold upload_to_onedrive, is_configured, bind, lift. rewrite He.
    reflexivity.
Qed.

(** The list comprehension keeps, in order, the variables whose value is
    unset or empty. *)
Lemma missing_vars_filter (value : string -> pyval) vars :
  (forall var, os_getenv sv var = Ok (value var)) ->
  missing_vars sv vars = Ok (filter (fun var => negb (truthy (value var))) vars).
Proof.
  intros H. induction vars as [|var vars IH]; simpl; [reflexivity|].
  rewrite H, IH. destruct (truthy (value var)); reflexivity.
Qed.

(** X24.  [health_check] answers 503 with the names of all the required
    variables that are unset or empty, in the order of the list, separated
    by commas; when none is missing it answers 200, reporting the drive as
    [available] or [not configured] according to the upload flag. *)
Theorem health_check_lists_missing (value : string -> pyval) req g w :
  (forall var, os_getenv sv var = Ok (value var)) ->
  let missing := filter (fun var => negb (truthy (value var))) (required_vars) in
  (missing <> [] ->
   health_check sv cfg req g w =
   (Ok (create_error_response
          (PStr ("Variables d'environnement manquantes: "
                 ++ String.concat ", " missing)) 503), g, w)) /\
  (missing = [] ->
   health_check sv cfg req g w =
   (Ok (create_response
          (PDict [("status", PStr "healthy");
                  ("timestamp", PStr (utcnow_isoformat sv));
                  ("services",
                   PDict [("translator", PStr "available");
                          ("blob_storage", PStr "available");
                          ("onedrive",
                           PStr (if truthy (ONEDRIVE_UPLOAD_ENABLED cfg)
                                 then "available" else "not configured"))])])
          200), g, w)).
Proof.
  intros H missing.
  unfold health_check, health_check_try, try_except, bind, lift, ret.
  rewrite (missing_vars_filter value _ H). fold missing.
  destruct missing as [|m ms]; split; intros E; try reflexivity;
    try discriminate E; contradiction.
Qed.

(** X25.  [get_supported_languages] and [get_supported_formats] answer
    200 with the list and its length as [count]; a value without length
    is answered 500. *)
Theorem listings_count_their_items req g w :
  (forall items,
      get_all_languages sv = Ok (PList items) ->
      get_supported_languages sv req g w =
      (Ok (create_response
             (PDict [("languages", PList items);
                     ("count", PInt (Z.of_nat (List.length items)))]) 200), g, w)) /\
  (forall items,
      get_all_formats sv = Ok (PList items) ->
      get_supported_formats sv req g w =
      (Ok (create_response
             (PDict [("formats", PList items);
                     ("count", PInt (Z.of_nat (List.length items)))]) 200), g, w)) /\
  (get_all_languages sv = Ok PNone ->
   get_supported_languages sv req g w =
   (Ok (create_error_response
          (PStr "Erreur interne: object of type 'NoneType' has no len()") 500), g, w)).
Proof.
  repeat split.
  - intros items H. unfold get_supported_languages, listing_try, try_except,
      bind, lift, ret. rewrite H. reflexivity.
  - intros items H. unfold get_supported_formats, listing_try, try_except,
      bind, lift, ret. rewrite H. reflexivity.
  - intros H. unfold get_supported_languages, listing_try, try_except,
      bind, lift, ret. rewrite H. reflexivity.
Qed.

End HandlerEdges.

(* ===================================================================== *)
(** ** Listing and deleting on the drive *)
(* ===================================================================== *)

Section DriveMaintenance.

Variable rt : Runtime.

Ltac run_contents :=
  unfold get_folder_contents, is_configured, try_except, bind, self, ret, lift.

Ltac run_delete :=
  unfold delete_file, is_configured, try_except, bind, self, ret, lift.

(** The loop of [get_folder_contents] on items that are all dicts. *)
Lemma file_entries_of_dicts ds :
  file_entries (map PDict ds) = Ok (map entry_of (filter has_file ds)).
Proof.
  induction ds as [|d ds IH]; simpl; [reflexivity|].
  unfold has_file. destruct (assoc "file" d); simpl.
  - rewrite IH. reflexivity.
  - exact IH.
Qed.

(** X26.  Without a folder name, [get_folder_contents] lists the drive
    root in one request, with no folder resolution.  From a 200 answer
    whose items are dicts it keeps the items that have a [file] facet, in
    order, and nothing else (folders are left out); [count] is the number
    of entries returned. *)
Theorem root_contents_are_the_files folder_name g w configured access_token g1 w1
        t response body ds :
  is_onedrive_enabled rt = Ok configured ->
  truthy configured = true ->
  absent folder_name = true ->
  _get_access_token rt g w = (Ok access_token, g1, w1) ->
  truthy access_token = true ->
  let request :=
    contents_request rt (graph_base_url g1 ++ "/me/drive/root/children") access_token in
  transport rt (sent w1) (now w1) request = (t, Ok response) ->
  status_code response = 200 ->
  json response = Ok (PDict body) ->
  assoc "value" body = Some (PList (map PDict ds)) ->
  get_folder_contents rt folder_name g w =
  (Ok (PDict [("success", PBool true);
              ("files", PList (map entry_of (filter has_file ds)));
              ("count", PInt (Z.of_nat (List.length (filter has_file ds))))]),
   g1, mkWorld t (sent w1 ++ [request])).
Proof.
  intros Hc Ht Ha Tok Ttok request T S J V. run_contents.
  rewrite Hc, Ht. cbn [negb]. rewrite Tok, Ttok. cbn [negb]. rewrite Ha. cbn [negb].
  unfold requests_send. fold request. rewrite T.
  apply Z.eqb_eq in S. rewrite S, J. simpl. rewrite V. simpl.
  rewrite file_entries_of_dicts. rewrite length_map. reflexivity.
Qed.

(** X27.  With a folder name, [get_folder_contents] first resolves the
    folder; when the resolution gives nothing it answers that the folder
    is not to be found and lists nothing. *)
Theorem contents_of_unresolved_folder name g w configured access_token g1 w1
        folder_id w2 :
  is_onedrive_enabled rt = Ok configured ->
  truthy configured = true ->
  String.eqb name "" = false ->
  _get_access_token rt g w = (Ok access_token, g1, w1) ->
  truthy access_token = true ->
  _ensure_folder_exists rt access_token name g1 w1 = (Ok folder_id, g1, w2) ->
  truthy folder_id = false ->
  get_folder_contents rt (Some name) g w =
  (Ok (failure ("Dossier '" ++ name ++ "' introuvable")), g1, w2).
Proof.
  intros Hc Ht Hn Tok Ttok Fold Tfold. run_contents.
  rewrite Hc, Ht. cbn [negb]. rewrite Tok, Ttok. cbn [negb].
  unfold absent, param_value. rewrite Hn. cbn [negb].
  rewrite Fold, Tfold. reflexivity.
Qed.

(** X28.  [delete_file] sends one DELETE for the file and reports
    success on status 204 only: any other status, 200 included, is a
    failure whose message carries the status and the body; an exception of
    the transport is a failure carrying its message. *)
Theorem delete_succeeds_on_204_only file_id g w configured access_token g1 w1 t out :
  is_onedrive_enabled rt = Ok configured ->
  truthy configured = true ->
  _get_access_token rt g w = (Ok access_token, g1, w1) ->
  truthy access_token = true ->
  transport rt (sent w1) (now w1) (delete_request rt g1 access_token file_id)
    = (t, out) ->
  let w2 := mkWorld t (sent w1 ++ [delete_request rt g1 access_token file_id]) in
  (forall response,
      out = Ok response -> status_code response = 204 ->
      delete_file rt file_id g w =
      (Ok (PDict [("success", PBool true);
                  ("message", PStr "Fichier supprimé avec succès")]), g1, w2)) /\
  (forall response,
      out = Ok response -> status_code response <> 204 ->
      delete_file rt file_id g w =
      (Ok (failure ("Erreur HTTP " ++ py_str rt (PInt (status_code response))
                    ++ ": " ++ text response)), g1, w2)) /\
  (forall e,
      out = Raise e ->
      delete_file rt file_id g w =
      (Ok (failure ("Erreur interne: " ++ exn_msg e)), g1, w2)).
Proof.
  intros Hc Ht Tok Ttok T w2.
  assert (Run : delete_file rt file_id g w =
    match
      match out with
      | Ok response =>
          (if status_code response =? 204
           then ret (PDict [("success", PBool true);
                            ("message", PStr "Fichier supprimé avec succès")])
           else ret (failure ("Erreur HTTP "
                              ++ py_str rt (PInt (status_code response))
                              ++ ": " ++ text response))) g1 w2
      | Raise e => (Raise e, g1, w2)
      end
    with
    | (Ok a, g', w') => (Ok a, g', w')
    | (Raise e, g', w') => (Ok (failure ("Erreur interne: " ++ exn_msg e)), g', w')
    end).
  { run_delete. rewrite Hc, Ht. cbn [negb]. rewrite Tok, Ttok. cbn [negb].
    unfold requests_send. rewrite T. reflexivity. }
  repeat split.
  - intros response -> S. rewrite Run.
    apply Z.eqb_eq in S. rewrite S. reflexivity.
  - intros response -> S. rewrite Run.
    apply Z.eqb_neq in S. rewrite S. reflexivity.
  - intros e ->. rewrite Run. reflexivity.
Qed.

(** X29.  Neither [get_folder_contents] nor [delete_file] contacts the
    drive when the integration is not configured, or when no token can be
    had: each answers with the corresponding failure, and no request
    follows the token call. *)
Theorem maintenance_needs_configuration_and_token folder_name file_id g w configured :
  is_onedrive_enabled rt = Ok configured ->
  (truthy configured = false ->
   get_folder_contents rt folder_name g w = (Ok (failure "OneDrive non configuré"), g, w) /\
   delete_file rt file_id g w = (Ok (failure "OneDrive non configuré"), g, w)) /\
  (forall access_token g1 w1,
      truthy configured = true ->
      _get_access_token rt g w = (Ok access_token, g1, w1) ->
      truthy access_token = false ->
      get_folder_contents rt folder_name g w =
        (Ok (failure "Token d'accès indisponible"), g1, w1) /\
      delete_file rt file_id g w =
        (Ok (failure "Token d'accès indisponible"), g1, w1)).
Proof.
  intros Hc. split.
  - intros Ht. split.
    + run_contents. rewrite Hc, Ht. reflexivity.
    + run_delete. rewrite Hc, Ht. reflexivity.
  - intros tok g1 w1 Ht Tok Ttok. split.
    + run_contents. rewrite Hc, Ht. cbn [negb]. rewrite Tok, Ttok. reflexivity.
    + run_delete. rewrite Hc, Ht. cbn [negb]. rewrite Tok, Ttok. reflexivity.
Qed.

End DriveMaintenance.

(* ===================================================================== *)
(** ** The further properties on concrete worlds *)
(* ===================================================================== *)

Lemma token_call_footprint_witness :
  exists g' t,
    _get_access_token (Demo.provider 60) Demo.fresh_service (Demo.world_at 1000) =
      (Ok (PStr "tok"), g', mkWorld t [token_request Demo.fresh_service]) /\
    same_settings Demo.fresh_service g'.
Proof.
  do 2 eexists. split; [reflexivity|].
  exact (proj1 (proj2 (token_call_footprint (Demo.provider 60) Demo.fresh_service
                         (Demo.world_at 1000) _ _ _ eq_refl))).
Defined.

Lemma stale_token_is_not_returned_witness :
  let g := set_token_expires_at (Some 500)
             (set_access_token (PStr "old") Demo.fresh_service) in
  cache_valid g 1000 = false /\
  (PStr "tok" = PNone \/
   exists t response token_data,
     transport (Demo.provider 60) [] 1000 (token_request g) = (t, Ok response) /\
     status_code response = 200 /\
     json response = Ok token_data /\
     get token_data "access_token" = Ok (PStr "tok")).
Proof.
  intros g. split; [reflexivity|].
  eapply (stale_token_is_not_returned (Demo.provider 60) g (Demo.world_at 1000));
    reflexivity.
Defined.

Lemma fetched_token_is_reused_witness :
  exists g1,
    _get_access_token (Demo.provider 3600) Demo.fresh_service (Demo.world_at 1000) =
      (Ok (PStr "tok"), g1, mkWorld 1001 [token_request Demo.fresh_service]) /\
    _token_expires_at g1 = Some 4601 /\
    _get_access_token (Demo.provider 3600) g1 (Demo.world_at 4300) =
      (Ok (PStr "tok"), g1, Demo.world_at 4300).
Proof.
  eapply (fetched_token_is_reused (Demo.provider 3600) Demo.fresh_service
            (Demo.world_at 1000) 1001 (Demo.token_granted 3600));
    try reflexivity.
  - simpl. lia.
  - simpl. lia.
  - discriminate.
Defined.

Lemma find_folder_first_match_witness :
  find_folder "Translated Documents"
    [PDict Demo.notes_file; PDict Demo.namesake_file;
     PDict Demo.documents_folder; PInt 7] = Ok (Some (PStr "F0")).
Proof.
  assert (H : Forall (fun item => exists d', item = PDict d' /\
                        names_folder "Translated Documents" d' = false)
                     [PDict Demo.notes_file; PDict Demo.namesake_file]).
  { constructor; [eexists; split; reflexivity|].
    constructor; [eexists; split; reflexivity|]. constructor. }
  exact (proj2 (find_folder_first_match "Translated Documents" _ H)
           Demo.documents_folder [PInt 7] eq_refl).
Defined.

Lemma existing_folder_needs_no_creation_witness :
  let rt := Demo.drive [PDict Demo.namesake_file; PDict Demo.documents_folder; PInt 7] in
  _ensure_folder_exists rt (PStr "tok") "Translated Documents"
    Demo.fresh_service (Demo.world_at 0) =
  (Ok (PStr "F0"), Demo.fresh_service,
   mkWorld 1 [listing_request rt Demo.fresh_service (PStr "tok")]).
Proof.
  intros rt.
  eapply (existing_folder_needs_no_creation rt (PStr "tok") "Translated Documents"
            Demo.fresh_service (Demo.world_at 0) 1 _ _
            [PDict Demo.namesake_file] Demo.documents_folder [PInt 7]);
    try reflexivity.
  constructor; [eexists; split; reflexivity | constructor].
Defined.

Lemma listing_exception_stops_resolution_witness :
  let rt := Demo.always 200 "<html>" in
  _ensure_folder_exists rt (PStr "tok") "Translated Documents"
    Demo.fresh_service (Demo.world_at 0) =
  (Ok PNone, Demo.fresh_service,
   mkWorld 1 [listing_request rt Demo.fresh_service (PStr "tok")]).
Proof.
  intros rt.
  eapply (listing_exception_stops_resolution rt (PStr "tok") "Translated Documents"
            Demo.fresh_service (Demo.world_at 0) 1);
    [reflexivity|].
  right. do 2 eexists. repeat split.
Defined.

Lemma missing_folder_is_created_witness :
  let rt := Demo.drive [PDict Demo.notes_file] in
  _ensure_folder_exists rt (PStr "tok") "Translated Documents"
    Demo.fresh_service (Demo.world_at 0) =
  (Ok (PStr "F1"), Demo.fresh_service,
   mkWorld 2 [listing_request rt Demo.fresh_service (PStr "tok");
              creation_request rt Demo.fresh_service (PStr "tok")
                "Translated Documents"]).
Proof.
  intros rt.
  eapply (missing_folder_is_created rt (PStr "tok") "Translated Documents"
            Demo.fresh_service (Demo.world_at 0) 1 _ 2 _ [("id", PStr "F1")]);
    reflexivity.
Defined.

Lemma split_last_dot_join_witness :
  has_dot "docx" = false /\
  split_last_dot "annual.report.docx" = Some ("annual.report", "docx").
Proof.
  split; [reflexivity|].
  exact (proj1 (split_last_dot_join "annual.report" "docx" eq_refl)).
Defined.

Lemma unique_name_keeps_extension_witness :
  exists unique_name,
    unique_filename_at Demo.instant "report.pdf" "u1" = Ok unique_name /\
    split_last_dot unique_name = Some ("report_u1_20240102_030405", "pdf").
Proof.
  eapply (unique_name_keeps_extension Demo.instant "report.pdf" "u1" "report" "pdf");
    [reflexivity | discriminate].
Defined.

Lemma output_blob_names_differ_witness :
  split_last_dot "doc.docx" = Some ("doc", "docx") /\
  split_last_dot "doc-es.docx" = Some ("doc-es", "docx").
Proof.
  split; [reflexivity|].
  exact (proj1 (output_blob_names_differ "doc.docx" "doc" "docx" eq_refl)
           "es" "doc-es.docx" eq_refl).
Defined.

Lemma upload_stops_without_token_witness :
  let rt := Demo.always 503 "down" in
  upload_to_onedrive rt (PStr "bytes") "doc-es.docx" "u1"
    Demo.fresh_service (Demo.world_at 0) =
  (Ok (failure "Impossible d'obtenir le token d'accès Microsoft Graph"),
   Demo.fresh_service, mkWorld 1 [token_request Demo.fresh_service]).
Proof.
  intros rt.
  eapply (upload_stops_without_token rt (PStr "bytes") "doc-es.docx" "u1"
            Demo.fresh_service (Demo.world_at 0) (PBool true) 1);
    try reflexivity.
  simpl. left. discriminate.
Defined.

Lemma upload_stops_without_folder_witness :
  exists g1 w2,
    upload_to_onedrive Demo.drive_read_only (PStr "bytes") "doc-es.docx" "u1"
      Demo.fresh_service (Demo.world_at 0) =
    (Ok (failure "Impossible de créer/accéder au dossier OneDrive"), g1, w2).
Proof.
  do 2 eexists.
  eapply (upload_stops_without_folder Demo.drive_read_only (PStr "bytes")
            "doc-es.docx" "u1" Demo.fresh_service (Demo.world_at 0));
    reflexivity.
Defined.

Lemma upload_sends_file_once_witness :
  exists g1 w3,
    upload_to_onedrive (Demo.drive [PDict Demo.documents_folder]) (PStr "bytes")
      "doc-es.docx" "u1" Demo.fresh_service (Demo.world_at 0) =
    (Ok (PDict [("success", PBool true);
                ("onedrive_url", PStr "https://drive/file-1");
                ("file_id", PStr "file-1");
                ("file_name", PStr "doc-es_u1_20240102_030405.docx")]), g1, w3).
Proof.
  do 2 eexists.
  eapply (proj1 (upload_sends_file_once (Demo.drive [PDict Demo.documents_folder])
                   (PStr "bytes") "doc-es.docx" "u1" Demo.fresh_service
                   (Demo.world_at 0) (PBool true) (PStr "tok") _ _ (PStr "F0") _
                   "doc-es_u1_20240102_030405.docx" 3 _
                   eq_refl eq_refl eq_refl eq_refl eq_refl eq_refl eq_refl eq_refl
                   eq_refl)
            [("id", PStr "file-1"); ("webUrl", PStr "https://drive/file-1")]);
    reflexivity.
Defined.

Lemma upload_always_answers_witness :
  exists answer success g' w',
    upload_to_onedrive Demo.not_configured (PStr "bytes") "doc-es.docx" "u1"
      Demo.fresh_service (Demo.world_at 0) = (Ok (PDict answer), g', w') /\
    assoc "success" answer = Some (PBool success).
Proof.
  exact (proj1 (upload_always_answers Demo.not_configured (PStr "bytes")
                  "doc-es.docx" "u1" Demo.fresh_service (Demo.world_at 0))
           (PBool false) eq_refl).
Defined.

Lemma upload_sends_at_most_four_witness :
  let r := upload_to_onedrive (Demo.drive [PDict Demo.notes_file]) (PStr "bytes")
             "doc-es.docx" "u1" Demo.fresh_service (Demo.world_at 0) in
  List.length (sent (snd r)) = 4%nat /\
  at_most_more 4 (Demo.world_at 0) (snd r).
Proof.
  intros r. split; [reflexivity|].
  exact (proj2 (upload_sends_at_most_four (Demo.drive [PDict Demo.notes_file])
                  (PStr "bytes") "doc-es.docx" "u1" Demo.fresh_service
                  (Demo.world_at 0) (fst (fst r)) (snd (fst r)) (snd r) eq_refl)).
Defined.

(** An empty body, a body that is not JSON (the [JSONDecodeError] that
    [json] raises is a [ValueError]), and a body without
    [target_language]. *)
Lemma start_translation_validates_witness :
  let rt := Demo.provider 3600 in
  let g := Demo.fresh_service in
  let w := Demo.world_at 0 in
  start_translation rt Demo.services (Demo.result_request []) g w =
    (Ok (create_error_response (PStr "Corps de requête manquant") 400), g, w) /\
  start_translation rt Demo.services Demo.bad_json_request g w =
    (Ok (create_error_response
           (PStr "JSON invalide: Expecting value: line 1 column 1 (char 0)") 400),
     g, w) /\
  start_translation rt Demo.services Demo.incomplete_request g w =
    (Ok (create_error_response (PStr "Paramètre manquant: target_language") 400),
     g, w).
Proof.
  intros rt g w. split; [|split].
  - exact (proj1 (start_translation_validates rt Demo.services
                    (Demo.result_request []) g w) eq_refl).
  - exact (proj1 (proj2 (start_translation_validates rt Demo.services
                           Demo.bad_json_request g w))
             (mkExn "JSONDecodeError" "Expecting value: line 1 column 1 (char 0)")
             eq_refl eq_refl eq_refl).
  - apply (proj1 (proj2 (proj2 (proj2 (start_translation_validates rt Demo.services
                                          Demo.incomplete_request g w))
                                 _ eq_refl eq_refl))).
    + discriminate.
    + reflexivity.
Defined.

Lemma start_translation_needs_object_witness :
  exists body,
    start_translation (Demo.provider 3600) Demo.services Demo.array_request
      Demo.fresh_service (Demo.world_at 0) =
      (Ok (mkHttpResponse 400 body), Demo.fresh_service, Demo.world_at 0) \/
    start_translation (Demo.provider 3600) Demo.services Demo.array_request
      Demo.fresh_service (Demo.world_at 0) =
      (Ok (mkHttpResponse 500 body), Demo.fresh_service, Demo.world_at 0).
Proof.
  eapply (start_translation_needs_object (Demo.provider 3600) Demo.services
            Demo.array_request); try reflexivity.
  intros fields H. discriminate H.
Defined.

Lemma start_translation_downstream_failure_witness :
  start_translation (Demo.provider 3600) Demo.engine_down Demo.start_request
    Demo.fresh_service (Demo.world_at 0) =
  (Ok (create_error_response
         (PStr "Erreur lors de la traduction: engine unavailable") 500),
   Demo.fresh_service, Demo.world_at 0).
Proof.
  eapply (proj2 (start_translation_downstream_failure (Demo.provider 3600)
                   Demo.engine_down Demo.start_request _ (PStr "doc.docx")
                   (PStr "es") (PStr "u1") Demo.fresh_service (Demo.world_at 0)
                   (mkExn "RuntimeError" "engine unavailable")
                   eq_refl eq_refl eq_refl eq_refl eq_refl eq_refl));
    reflexivity.
Defined.

Lemma check_status_answers_witness :
  check_translation_status Demo.services Demo.status_request
    Demo.fresh_service (Demo.world_at 0) =
  (Ok (create_response (PDict []) 200), Demo.fresh_service, Demo.world_at 0).
Proof.
  eapply (proj1 (proj2 (check_status_answers Demo.services Demo.status_request
                          Demo.fresh_service (Demo.world_at 0))
                   "job-1" eq_refl eq_refl));
    reflexivity.
Defined.

Lemma result_absent_is_404_witness :
  get_translation_result (Demo.provider 3600) Demo.no_output
    (Demo.result_request [("blob_name", "doc.docx"); ("target_language", "es");
                          ("user_id", "u1")])
    Demo.fresh_service (Demo.world_at 0) =
  (Ok (create_error_response (PStr "Fichier traduit introuvable") 404),
   Demo.fresh_service, Demo.world_at 0).
Proof.
  eapply (result_absent_is_404 (Demo.provider 3600) Demo.no_output);
    reflexivity.
Defined.

Lemma result_survives_upload_failure_witness :
  get_translation_result Demo.not_configured Demo.services
    (Demo.result_request [("blob_name", "doc.docx"); ("target_language", "es");
                          ("user_id", "u1")])
    Demo.fresh_service (Demo.world_at 0) =
  (Ok (create_response
         (PDict [("download_url", PStr "https://blob/out");
                 ("onedrive_url", failure "OneDrive non configuré")]) 200),
   Demo.fresh_service, Demo.world_at 0).
Proof.
  destruct (proj1 (result_survives_upload_failure Demo.not_configured Demo.services
                     (Demo.result_request [("blob_name", "doc.docx");
                                           ("target_language", "es");
                                           ("user_id", "u1")])
                     "doc.docx" "es" "u1" "doc-es.docx" (PStr "https://blob/out")
                     (PStr "bytes") Demo.fresh_service (Demo.world_at 0)
                     eq_refl eq_refl eq_refl eq_refl eq_refl eq_refl eq_refl eq_refl
                     eq_refl eq_refl)
              (PBool false) eq_refl) as (answer & g' & w' & Up & Run).
  rewrite Run. simpl in Up. inversion Up; subst. reflexivity.
Defined.

Lemma health_check_lists_missing_witness :
  health_check Demo.keys_unset Demo.config (Demo.result_request [])
    Demo.fresh_service (Demo.world_at 0) =
  (Ok (create_error_response
         (PStr "Variables d'environnement manquantes: TRANSLATOR_KEY, AZURE_ACCOUNT_KEY")
         503),
   Demo.fresh_service, Demo.world_at 0).
Proof.
  eapply (proj1 (health_check_lists_missing Demo.keys_unset Demo.config
                   Demo.environment_value (Demo.result_request [])
                   Demo.fresh_service (Demo.world_at 0) (fun _ => eq_refl))).
  discriminate.
Defined.

Lemma listings_count_their_items_witness :
  get_supported_languages Demo.services (Demo.result_request [])
    Demo.fresh_service (Demo.world_at 0) =
  (Ok (create_response (PDict [("languages", PList []); ("count", PInt 0)]) 200),
   Demo.fresh_service, Demo.world_at 0) /\
  get_supported_languages Demo.no_languages (Demo.result_request [])
    Demo.fresh_service (Demo.world_at 0) =
  (Ok (create_error_response
         (PStr "Erreur interne: object of type 'NoneType' has no len()") 500),
   Demo.fresh_service, Demo.world_at 0).
Proof.
  split.
  - exact (proj1 (listings_count_their_items Demo.services (Demo.result_request [])
                    Demo.fresh_service (Demo.world_at 0)) [] eq_refl).
  - exact (proj2 (proj2 (listings_count_their_items Demo.no_languages
                           (Demo.result_request [])
                           Demo.fresh_service (Demo.world_at 0))) eq_refl).
Defined.

Lemma root_contents_are_the_files_witness :
  exists g1 w2,
    get_folder_contents
      (Demo.drive [PDict Demo.notes_file; PDict Demo.documents_folder;
                   PDict Demo.namesake_file])
      None Demo.fresh_service (Demo.world_at 0) =
    (Ok (PDict [("success", PBool true);
                ("files", PList [entry_of Demo.notes_file;
                                 entry_of Demo.namesake_file]);
                ("count", PInt 2)]), g1, w2).
Proof.
  do 2 eexists.
  eapply (root_contents_are_the_files
            (Demo.drive [PDict Demo.notes_file; PDict Demo.documents_folder;
                         PDict Demo.namesake_file])
            None Demo.fresh_service (Demo.world_at 0) (PBool true) (PStr "tok")
            _ _ 2 _ _
            [Demo.notes_file; Demo.documents_folder; Demo.namesake_file]);
    reflexivity.
Defined.

Lemma contents_of_unresolved_folder_witness :
  exists g1 w2,
    get_folder_contents Demo.drive_read_only (Some "Archive")
      Demo.fresh_service (Demo.world_at 0) =
    (Ok (failure "Dossier 'Archive' introuvable"), g1, w2).
Proof.
  do 2 eexists.
  eapply (contents_of_unresolved_folder Demo.drive_read_only "Archive"
            Demo.fresh_service (Demo.world_at 0));
    reflexivity.
Defined.

Lemma delete_succeeds_on_204_only_witness :
  (exists g1 w2,
      delete_file (Demo.drive []) "file-1" Demo.fresh_service (Demo.world_at 0) =
      (Ok (PDict [("success", PBool true);
                  ("message", PStr "Fichier supprimé avec succès")]), g1, w2)) /\
  (exists g1 w2,
      delete_file Demo.drive_read_only "file-1" Demo.fresh_service (Demo.world_at 0) =
      (Ok (failure "Erreur HTTP ?: read only"), g1, w2)).
Proof.
  split; do 2 eexists.
  - eapply (proj1 (delete_succeeds_on_204_only (Demo.drive []) "file-1"
                     Demo.fresh_service (Demo.world_at 0) (PBool true) (PStr "tok")
                     _ _ 2 _ eq_refl eq_refl eq_refl eq_refl eq_refl));
      reflexivity.
  - eapply (proj1 (proj2 (delete_succeeds_on_204_only Demo.drive_read_only "file-1"
                     Demo.fresh_service (Demo.world_at 0) (PBool true) (PStr "tok")
                     _ _ 2 _ eq_refl eq_refl eq_refl eq_refl eq_refl))
              (mkResponse 403 (Raise (ValueError "no JSON")) "read only"));
      [reflexivity | discriminate].
Defined.

Lemma maintenance_needs_configuration_and_token_witness :
  get_folder_contents Demo.not_configured None Demo.fresh_service (Demo.world_at 0) =
    (Ok (failure "OneDrive non configuré"), Demo.fresh_service, Demo.world_at 0) /\
  delete_file Demo.not_configured "file-1" Demo.fresh_service (Demo.world_at 0) =
    (Ok (failure "OneDrive non configuré"), Demo.fresh_service, Demo.world_at 0).
Proof.
  exact (proj1 (maintenance_needs_configuration_and_token Demo.not_configured None
                  "file-1" Demo.fresh_service (Demo.world_at 0) (PBool false) eq_refl)
           eq_refl).
Defined.
